(** * Vincenzo: the metadata resolution pipeline of [vincenzo.py]

    A shallow embedding of the functions that take a Civitai page URL to the
    seven detail fields and a preview image URL, and the properties of them
    that the specification states.

    Conventions of the embedding.
    - Every Python value that comes out of [json.loads] is a [json]; [None]
      is [JNull].  A dict is the list of its items in insertion order, read
      by first match.
    - A call that may raise returns in [py]: [Ret v] or [Raise e].
    - The libraries the script calls ([re], [json], [requests], [bs4],
      [urllib]) and the float printer of the interpreter are the fields of
      the class [Runtime]; the script's own control flow around them is
      written out.
    - Text is a [string] of characters below 128; [strip], [upper] and
      [str_repr] follow Python on those and leave other characters alone. *)

From Stdlib Require Import ZArith String Ascii Bool Lia.
From Stdlib Require Import SpecFloat.
From stdpp Require Import base option list sorting gmap strings pretty.

Local Open Scope string_scope.
Local Open Scope Z_scope.

(** ** Exceptions and the result of a call *)

Inductive exn : Set :=
| AttributeError
| TypeError
| KeyError
| IndexError
| ValueError
| OverflowError
| JSONDecodeError
| ConnectionError
| HTTPError.

Inductive py (A : Type) : Type :=
| Ret (a : A)
| Raise (e : exn).

Arguments Ret {A} a.
Arguments Raise {A} e.

#[global] Instance py_ret : MRet py := @Ret.

#[global] Instance py_bind : MBind py :=
  λ A B f m, match m with Ret a => f a | Raise e => Raise e end.

#[global] Instance py_fmap : FMap py :=
  λ A B f m, match m with Ret a => Ret (f a) | Raise e => Raise e end.

(** [try: m except cls: h], for one exception class. *)
Definition try_except_only {A} (cls : exn → bool) (m : py A) (h : py A) : py A :=
  match m with
  | Ret a => Ret a
  | Raise e => if cls e then h else Raise e
  end.

Definition raises {A} (m : py A) : bool :=
  match m with Ret _ => false | Raise _ => true end.

(** The exceptions [requests] raises: the call itself failing, and
    [raise_for_status] on a 4xx or 5xx answer. *)
Definition is_transport (e : exn) : bool :=
  match e with
  | ConnectionError | HTTPError => true
  | _ => false
  end.

(** A call that raises no transport exception. *)
Definition structural {A} (m : py A) : Prop :=
  ∀ e, m = Raise e → is_transport e = false.

(** ** JSON values *)

#[local] Set Warnings "-register-all".

Inductive json : Type :=
| JNull
| JBool (b : bool)
| JInt (n : Z)
| JFloat (x : spec_float)
| JStr (s : string)
| JList (l : list json)
| JDict (d : list (string * json)).

Abbreviation dict := (list (string * json)).

Fixpoint assoc (k : string) (d : dict) : option json :=
  match d with
  | [] => None
  | (k', v) :: d' => if String.eqb k k' then Some v else assoc k d'
  end.

(** [d.get(k)] on a dict. *)
Definition dict_get (d : dict) (k : string) : json :=
  default JNull (assoc k d).

(** [d[k] = v] on a dict: the value is replaced in place, a new key goes
    last. *)
Fixpoint dict_set (k : string) (v : json) (d : dict) : dict :=
  match d with
  | [] => [(k, v)]
  | (k', v') :: d' =>
      if String.eqb k k' then (k', v) :: d' else (k', v') :: dict_set k v d'
  end.

(** [v.get(k)] on any value: only a dict has the method. *)
Definition get (v : json) (k : string) : py json :=
  match v with
  | JDict d => Ret (dict_get d k)
  | _ => Raise AttributeError
  end.

(** [v.get(k, dflt)] *)
Definition get_default (v : json) (k : string) (dflt : json) : py json :=
  match v with
  | JDict d => Ret (default dflt (assoc k d))
  | _ => Raise AttributeError
  end.

(** [v[k]] with a string key. *)
Definition getitem (v : json) (k : string) : py json :=
  match v with
  | JDict d =>
      match assoc k d with
      | Some x => Ret x
      | None => Raise KeyError
      end
  | _ => Raise TypeError
  end.

Definition is_list (v : json) : bool :=
  match v with JList _ => true | _ => false end.

Definition is_dict (v : json) : bool :=
  match v with JDict _ => true | _ => false end.

Definition is_none (v : json) : bool :=
  match v with JNull => true | _ => false end.

Definition float_is_zero (x : spec_float) : bool :=
  match x with S754_zero _ => true | _ => false end.

(** [bool(v)] *)
Definition truthy (v : json) : bool :=
  match v with
  | JNull => false
  | JBool b => b
  | JInt n => negb (n =? 0)
  | JFloat x => negb (float_is_zero x)
  | JStr s => negb (String.eqb s "")
  | JList l => match l with [] => false | _ => true end
  | JDict d => match d with [] => false | _ => true end
  end.

(** [a or b] *)
Definition py_or (a b : json) : json :=
  if truthy a then a else b.

(** [v == s] for a string literal [s]. *)
Definition eq_str (v : json) (s : string) : bool :=
  match v with
  | JStr s' => String.eqb s' s
  | _ => false
  end.

(** The integer a float is equal to, when there is one. *)
Definition float_eq_int (x : spec_float) (n : Z) : bool :=
  match x with
  | S754_zero _ => n =? 0
  | S754_finite s m e =>
      let sm := if s then - Z.pos m else Z.pos m in
      if 0 <=? e then sm * 2 ^ e =? n else sm =? n * 2 ^ (- e)
  | _ => false
  end.

(** [v == n] for an int [n]. *)
Definition eq_int (v : json) (n : Z) : bool :=
  match v with
  | JInt m => m =? n
  | JBool b => (if b then 1 else 0) =? n
  | JFloat x => float_eq_int x n
  | _ => false
  end.

(** [for x in v]: the items a loop over [v] visits. *)
Definition py_iter (v : json) : py (list json) :=
  match v with
  | JList l => Ret l
  | JDict d => Ret (map (λ kv, JStr kv.1) d)
  | JStr s => Ret (map (λ c, JStr (String c "")) (list_ascii_of_string s))
  | _ => Raise TypeError
  end.

(** ** Text *)

Definition code (c : ascii) : N := N_of_ascii c.

(** [c.isspace()] *)
Definition is_space (c : ascii) : bool :=
  let n := code c in
  ((9 <=? n) && (n <=? 13) || (28 <=? n) && (n <=? 32))%N.

Definition is_digit (c : ascii) : bool :=
  let n := code c in ((48 <=? n) && (n <=? 57))%N.

Definition is_lower (c : ascii) : bool :=
  let n := code c in ((97 <=? n) && (n <=? 122))%N.

Fixpoint lstrip (s : string) : string :=
  match s with
  | String c s' => if is_space c then lstrip s' else s
  | EmptyString => EmptyString
  end.

(** The text without its trailing white space. *)
Fixpoint rstrip (s : string) : string :=
  match s with
  | String c s' =>
      match rstrip s' with
      | EmptyString => if is_space c then EmptyString else String c EmptyString
      | r => String c r
      end
  | EmptyString => EmptyString
  end.

(** [s.strip()] *)
Definition strip (s : string) : string := rstrip (lstrip s).

Definition upper_char (c : ascii) : ascii :=
  if is_lower c then ascii_of_N (code c - 32) else c.

(** [s.upper()] *)
Fixpoint upper (s : string) : string :=
  match s with
  | String c s' => String (upper_char c) (upper s')
  | EmptyString => EmptyString
  end.

Fixpoint starts_with (p s : string) : bool :=
  match p, s with
  | EmptyString, _ => true
  | String a p', String b s' => Ascii.eqb a b && starts_with p' s'
  | String _ _, EmptyString => false
  end.

(** [sub in s] *)
Fixpoint contains (sub s : string) : bool :=
  starts_with sub s ||
  match s with
  | String _ s' => contains sub s'
  | EmptyString => false
  end.

(** [s.replace(old, new)] for a non-empty [old]: occurrences are replaced
    from the left and do not overlap; [skip] counts the characters of an
    occurrence that are still to be dropped. *)
Fixpoint replace_from (skip : nat) (old new : string) (s : string) : string :=
  match s with
  | EmptyString => EmptyString
  | String c s' =>
      match skip with
      | S k => replace_from k old new s'
      | O =>
          if starts_with old s
          then new +:+ replace_from (String.length old - 1) old new s'
          else String c (replace_from O old new s')
      end
  end.

Definition replace (old new s : string) : string := replace_from O old new s.

(** [sep.join(l)] *)
Definition join (sep : string) (l : list string) : string := String.concat sep l.

Definition dquote : string := String (ascii_of_N 34) EmptyString.
Definition squote : string := String (ascii_of_N 39) EmptyString.
Definition backslash : string := String (ascii_of_N 92) EmptyString.

Definition hex_digit (n : N) : ascii :=
  if (n <? 10)%N then ascii_of_N (48 + n) else ascii_of_N (87 + n).

(** One character of [repr(s)], inside quotes [q]. *)
Definition repr_char (q : ascii) (c : ascii) : string :=
  let n := code c in
  if (n =? 92)%N then backslash +:+ backslash
  else if Ascii.eqb c q then backslash +:+ String c EmptyString
  else if (n =? 9)%N then backslash +:+ "t"
  else if (n =? 10)%N then backslash +:+ "n"
  else if (n =? 13)%N then backslash +:+ "r"
  else if ((n <? 32) || (n =? 127))%N
       then backslash +:+ "x" +:+
            String (hex_digit (n / 16)) (String (hex_digit (n mod 16)) EmptyString)
  else String c EmptyString.

Fixpoint repr_chars (q : ascii) (s : string) : string :=
  match s with
  | String c s' => repr_char q c +:+ repr_chars q s'
  | EmptyString => EmptyString
  end.

(** [repr(s)] of a str: single quotes, unless the text has a single quote and
    no double quote. *)
Definition str_repr (s : string) : string :=
  let q := if contains squote s && negb (contains dquote s)
           then ascii_of_N 34 else ascii_of_N 39 in
  String q (repr_chars q s) +:+ String q EmptyString.

(** ** Numbers *)

(** [int(x)] of a float: truncation towards zero. *)
Definition float_trunc (x : spec_float) : py Z :=
  match x with
  | S754_zero _ => Ret 0
  | S754_finite s m e =>
      let a := if 0 <=? e then Z.pos m * 2 ^ e else Z.pos m / 2 ^ (- e) in
      Ret (if s then - a else a)
  | S754_nan => Raise ValueError
  | S754_infinity _ => Raise OverflowError
  end.

(** The digits of a decimal literal, where single underscores may stand
    between digits; [after_digit] tells whether the character before was a
    digit. *)
Fixpoint int_digits (acc : Z) (after_digit : bool) (s : string) : option Z :=
  match s with
  | EmptyString => if after_digit then Some acc else None
  | String c s' =>
      if is_digit c then int_digits (10 * acc + (Z.of_N (code c) - 48)) true s'
      else if Ascii.eqb c "_" && after_digit then int_digits acc false s'
      else None
  end.

(** The number of digit characters of a text. *)
Fixpoint digit_count (s : string) : Z :=
  match s with
  | String c s' => (if is_digit c then 1 else 0) + digit_count s'
  | EmptyString => 0
  end.

(** [sys.get_int_max_str_digits()], as CPython sets it from 3.11 on. *)
Definition MAX_STR_DIGITS : Z := 4300.

(** [int(s)] of a str: white space around, an optional sign, digits.  A
    literal of more than [MAX_STR_DIGITS] digit characters is refused, as
    one that is not well formed is, with [ValueError]; the sign and the
    underscores are not counted. *)
Definition int_of_str (s : string) : py Z :=
  let parsed :=
    match strip s with
    | String c s' =>
        if Ascii.eqb c "-" then Z.opp <$> int_digits 0 false s'
        else if Ascii.eqb c "+" then int_digits 0 false s'
        else int_digits 0 false (String c s')
    | EmptyString => None
    end in
  match parsed with
  | Some n =>
      if MAX_STR_DIGITS <? digit_count (strip s) then Raise ValueError else Ret n
  | None => Raise ValueError
  end.

(** [int(v)] *)
Definition py_int (v : json) : py Z :=
  match v with
  | JBool b => Ret (if b then 1 else 0)
  | JInt n => Ret n
  | JFloat x => float_trunc x
  | JStr s => int_of_str s
  | JNull | JList _ | JDict _ => Raise TypeError
  end.

(** ** The libraries *)

(** An answer of [requests]: status code, headers in the order received,
    body text. *)
Record response : Type := {
  status_code : Z;
  headers : list (string * string);
  text : string
}.

(** An [<img>] tag of a parsed page: its [src], and its [class] as the
    list of class names. *)
Record img : Type := {
  img_src : option string;
  img_class : option (list string)
}.

Inductive re_flag : Set := IGNORECASE | DOTALL.

Class Runtime : Type := {
  (** [str(x)] of a float *)
  float_str : spec_float → string;
  (** [json.loads(s)]; [None] when it raises [JSONDecodeError] *)
  json_loads : string → option json;
  (** [re.search(pattern, s, flags)]: [group(1)] of the match, if any *)
  re_search : string → list re_flag → string → option string;
  (** [requests.get(url, ...)]; [None] when the call raises *)
  requests_get : string → option response;
  (** [requests.head(url, ..., allow_redirects=True)]; [None] when the
      call raises *)
  requests_head : json → option response;
  (** [urllib.parse.unquote] *)
  unquote : string → string;
  (** [BeautifulSoup(html, "html.parser").find_all("img")]; [None] when
      the parser raises *)
  soup_find_all_img : string → option (list img)
}.

(** [resp.headers.get(name)]: header names compare without case. *)
Fixpoint headers_get (name : string) (hs : list (string * string)) : option string :=
  match hs with
  | [] => None
  | (k, v) :: hs' =>
      if String.eqb (upper k) (upper name) then Some v else headers_get name hs'
  end.

(** [resp.raise_for_status()] *)
Definition raise_for_status (resp : response) : py unit :=
  if (400 <=? status_code resp) && (status_code resp <? 600)
  then Raise HTTPError else Ret tt.

Section Pipeline.

Context {rt : Runtime}.

(** [repr(v)] *)
Fixpoint py_repr (v : json) : string :=
  match v with
  | JNull => "None"
  | JBool b => if b then "True" else "False"
  | JInt n => pretty n
  | JFloat x => float_str x
  | JStr s => str_repr s
  | JList l => "[" +:+ join ", " (map py_repr l) +:+ "]"
  | JDict d =>
      "{" +:+ join ", " (map (λ kv, str_repr kv.1 +:+ ": " +:+ py_repr kv.2) d) +:+ "}"
  end.

(** [str(v)], also what an f-string prints for [{v}]. *)
Definition py_str (v : json) : string :=
  match v with
  | JStr s => s
  | _ => py_repr v
  end.

(** [requests.get(url, ...)] as a call that may raise. *)
Definition http_get (url : string) : py response :=
  match requests_get url with
  | Some resp => Ret resp
  | None => Raise ConnectionError
  end.

(** [json.loads(raw)] as a call that may raise. *)
Definition loads (raw : string) : py json :=
  match json_loads raw with
  | Some v => Ret v
  | None => Raise JSONDecodeError
  end.

(** The test [if s:] on a str. *)
Definition nonempty (s : string) : bool := negb (String.eqb s "").

(** [a or b] on values that are a str or [None]. *)
Definition str_or (a b : option string) : option string :=
  match a with
  | Some s => if nonempty s then a else b
  | None => b
  end.

(** ** Identifier parser (lines 96-109) *)

Definition extract_ids_from_url (url : string) : py (option Z * option Z) :=
  model_id ←
    match re_search "/models/(\d+)" [] url with
    | Some g => Some <$> int_of_str g
    | None => Ret None
    end;
  version_id ←
    match re_search "[?&]modelVersionId=(\d+)" [] url with
    | Some g => Some <$> int_of_str g
    | None => Ret None
    end;
  Ret (model_id, version_id).

(** ** Page fetcher (lines 112-115) *)

Definition fetch_html (url : string) : py string :=
  resp ← http_get url;
  _ ← raise_for_status resp;
  Ret (text resp).

(** ** Embedded-state locator (lines 118-136) *)

Definition next_data_pattern : string :=
  "<script[^>]+id=" +:+ dquote +:+ "__NEXT_DATA__" +:+ dquote +:+
  "[^>]*>(.*?)</script>".

Definition is_JSONDecodeError (e : exn) : bool :=
  match e with JSONDecodeError => true | _ => false end.

Definition extract_next_data (html : string) : py json :=
  match re_search next_data_pattern [DOTALL; IGNORECASE] html with
  | None => Ret JNull
  | Some g =>
      let raw := strip g in
      try_except_only is_JSONDecodeError
        (loads raw)
        (let raw := replace "&quot;" dquote raw in loads raw)
  end.

(** ** Preview image from the markup (lines 139-164) *)

Definition src_of (i : img) : string := default "" (img_src i).

Definition classes_of (i : img) : string := join " " (default [] (img_class i)).

Definition extract_preview_image_url (html : string) : option string :=
  match soup_find_all_img html with
  | None => None
  | Some imgs =>
      match List.find (λ i, contains "image.civitai.com" (src_of i)
                            && contains "EdgeImage_image__" (classes_of i)) imgs with
      | Some i => Some (src_of i)
      | None =>
          match List.find (λ i, contains "image.civitai.com" (src_of i)) imgs with
          | Some i => Some (src_of i)
          | None => None
          end
      end
  end.

(** ** Query-record resolver (lines 167-200) *)

(** [len(v)] and [v[i]] on a list, used after [isinstance(v, list)]. *)
Definition len (v : json) : Z :=
  match v with JList l => Z.of_nat (length l) | _ => 0 end.

Definition item (v : json) (i : nat) : json :=
  match v with JList l => nth i l JNull | _ => JNull end.

Definition queries_of (next_data : json) : py json :=
  props ← getitem next_data "props";
  page_props ← getitem props "pageProps";
  trpc_state ← getitem page_props "trpcState";
  j ← getitem trpc_state "json";
  getitem j "queries".

(** The loop over [queries], with the running fallback [candidate]. *)
Fixpoint scan_queries (model_id : option Z) (candidate : json)
    (queries : list json) : py json :=
  match queries with
  | [] => Ret candidate
  | q :: rest =>
      key ← get q "queryKey";
      if negb (is_list key) || negb (truthy key)
      then scan_queries model_id candidate rest
      else
        let first := item key 0 in
        if is_list first && (2 <=? len first)
           && eq_str (item first 0) "model" && eq_str (item first 1) "getById"
        then
          state ← get_default q "state" (JDict []);
          data ← get state "data";
          if negb (is_dict data) then scan_queries model_id candidate rest
          else
            id ← get data "id";
            if match model_id with None => true | Some m => eq_int id m end
            then Ret data
            else scan_queries model_id data rest
        else scan_queries model_id candidate rest
  end.

Definition find_model_from_trpc (next_data : json) (model_id : option Z) : py json :=
  match queries_of next_data with
  | Raise _ => Ret JNull
  | Ret queries =>
      qs ← py_iter queries;
      scan_queries model_id JNull qs
  end.

(** ** Version selector (lines 203-223) *)

(** [int(v.get("id")) == version_id] *)
Definition id_is (version_id : Z) (v : json) : py bool :=
  i ← get v "id";
  n ← py_int i;
  Ret (n =? version_id).

(** The loop that looks for the requested version: an exception in the
    test skips the entry. *)
Fixpoint find_version (version_id : Z) (versions : list json) : option json :=
  match versions with
  | [] => None
  | v :: rest =>
      match id_is version_id v with
      | Ret true => Some v
      | Ret false | Raise _ => find_version version_id rest
      end
  end.

Definition _published_ts (v : json) : py string :=
  p ← get v "publishedAt";
  Ret (py_str (py_or p (JStr ""))).

(** The sort keys, computed for every element from the left before any
    comparison. *)
Fixpoint keyed (key : json → py string) (l : list json) : py (list (string * json)) :=
  match l with
  | [] => Ret []
  | v :: rest =>
      k ← key v;
      krest ← keyed key rest;
      Ret ((k, v) :: krest)
  end.

(** [x] put into a list that is in descending key order and holds elements
    that came after [x]: before the first element whose key is not above
    [x]'s. *)
Fixpoint insert_desc (x : string * json) (l : list (string * json)) : list (string * json) :=
  match l with
  | [] => [x]
  | y :: l' => if String.ltb x.1 y.1 then y :: insert_desc x l' else x :: y :: l'
  end.

(** [sorted(l, key=..., reverse=True)] on the keyed list: descending keys,
    equal keys in their original order. *)
Definition sorted_reverse (kl : list (string * json)) : list json :=
  (foldr insert_desc [] kl).*2.

Definition choose_model_version (model_data : json) (version_id : option Z) : py json :=
  versions ← get model_data "modelVersions";
  match versions with
  | JList ((_ :: _) as vs) =>
      match version_id ≫= λ vid, find_version vid vs with
      | Some v => Ret v
      | None =>
          kl ← keyed _published_ts vs;
          match sorted_reverse kl with
          | v :: _ => Ret v
          | [] => Raise IndexError
          end
      end
  | _ => Ret JNull
  end.

(** ** Usage tips (lines 226-255) *)

Definition build_usage_tips (version : json) : py string :=
  clip_skip ← get version "clipSkip";
  s ← get version "settings";
  let settings := py_or s (JDict []) in
  strength ← get settings "strength";
  min_s ← get settings "minStrength";
  max_s ← get settings "maxStrength";
  let clip_part :=
    if is_none clip_skip then [] else ["CLIP SKIP: " +:+ py_str clip_skip] in
  let strength_part :=
    if is_none strength then []
    else if negb (is_none min_s) || negb (is_none max_s) then
      let extra :=
        ((if is_none min_s then [] else ["min " +:+ py_str min_s]) ++
         (if is_none max_s then [] else ["max " +:+ py_str max_s]))%list in
      ["STRENGTH: " +:+ py_str strength +:+ " (" +:+ join ", " extra +:+ ")"]
    else ["STRENGTH: " +:+ py_str strength] in
  Ret (join " | " (clip_part ++ strength_part)%list).

(** ** File-name probe (lines 258-284) *)

Definition filename_pattern : string :=
  "filename\*?=(?:UTF-8\'\')?" +:+ dquote +:+ "?([^" +:+ dquote +:+ ";]+)" +:+
  dquote +:+ "?".

(** The whole body is under [try ... except Exception: return None]. *)
Definition fetch_real_filename (file_url : json) : option string :=
  match requests_head file_url with
  | None => None
  | Some resp =>
      let cd := str_or (headers_get "Content-Disposition" (headers resp))
                       (headers_get "content-disposition" (headers resp)) in
      match cd with
      | None => None
      | Some cd =>
          if negb (nonempty cd) then None
          else
            match re_search filename_pattern [IGNORECASE] cd with
            | None => None
            | Some g => Some (unquote (strip g))
            end
      end
  end.

(** ** Preview image from the API (lines 287-340) *)

(** [v[0]] *)
Definition getitem0 (v : json) : py json :=
  match v with
  | JList (x :: _) => Ret x
  | JList [] => Raise IndexError
  | JStr (String c _) => Ret (JStr (String c EmptyString))
  | JStr EmptyString => Raise IndexError
  | JDict _ => Raise KeyError
  | _ => Raise TypeError
  end.

Definition api_url (model_id : Z) : string :=
  "https://civitai.com/api/v1/models/" +:+ pretty model_id.

Definition fetch_preview_image_url_from_api (model_id version_id : option Z)
    : py (option string) :=
  match model_id with
  | None => Ret None
  | Some model_id =>
      match (resp ← http_get (api_url model_id);
             _ ← raise_for_status resp;
             Ret resp) with
      | Raise _ => Ret None
      | Ret resp =>
          match loads (text resp) with
          | Raise _ => Ret None
          | Ret data =>
              mv ← get data "modelVersions";
              let versions := py_or mv (JList []) in
              if negb (truthy versions) then Ret None
              else
                found ←
                  match version_id with
                  | Some vid => find_version vid <$> py_iter versions
                  | None => Ret None
                  end;
                chosen ←
                  match found with
                  | Some v => Ret v
                  | None => getitem0 versions
                  end;
                im ← get chosen "images";
                let images := py_or im (JList []) in
                if negb (truthy images) then Ret None
                else
                  first ← getitem0 images;
                  u1 ← get first "url";
                  u2 ← get first "urlSmall";
                  u3 ← get first "urlThumbnail";
                  let url := py_or (py_or u1 u2) u3 in
                  if negb (truthy url) then Ret None
                  else Ret (Some (strip (py_str url)))
          end
      end
  end.

(** ** Field normalizer (lines 457-557) *)

Definition TARGET_FIELDS : list string :=
  ["Type"; "Published"; "Base Model"; "Usage Tips"; "Trigger Words"; "Hash";
   "File Name"].

(** [{k: "" for k in TARGET_FIELDS}] *)
Definition empty_fields : gmap string string :=
  list_to_map ((λ k, (k, "")) <$> TARGET_FIELDS).

(** The test of line 505 on the value of [f.get("type")]. *)
Definition is_model_type (t : json) : bool :=
  eq_str t "Model" || eq_str t "model".

(** Lines 507-514, for a file [f] that is a dict: the value [file_name]
    has after them; it starts as the empty text and is assigned only
    under [if file_url]. *)
Definition model_file_name (f : dict) : string :=
  let file_url := dict_get f "url" in
  if truthy file_url then
    match fetch_real_filename file_url with
    | Some real_name =>
        if nonempty real_name then real_name
        else strip (py_str (py_or (dict_get f "name") (JStr "")))
    | None => strip (py_str (py_or (dict_get f "name") (JStr "")))
    end
  else "".

Definition preferred_order : list string :=
  ["AUTOV2"; "AutoV2"; "SHA256"; "SHA1"; "CRC32"].

(** The inner loop of lines 534-541 for one preferred type [t]:
    [(chosen_type, chosen_hash)] as assigned before its [break], if it
    breaks. *)
Fixpoint scan_hashes (t : string) (raw_hashes : list json) : option (string * string) :=
  match raw_hashes with
  | [] => None
  | h :: rest =>
      match h with
      | JDict d =>
          let ht := upper (py_str (py_or (dict_get d "type") (JStr ""))) in
          if String.eqb ht (upper t) && truthy (dict_get d "hash")
          then Some (ht, strip (py_str (dict_get d "hash")))
          else scan_hashes t rest
      | _ => scan_hashes t rest
      end
  end.

(** The outer loop of lines 533-543 over the preferred types, carrying
    [(chosen_type, chosen_hash)]. *)
Fixpoint scan_order (order : list string) (raw_hashes : list json)
    (chosen : string * string) : string * string :=
  match order with
  | [] => chosen
  | t :: order' =>
      let chosen' := default chosen (scan_hashes t raw_hashes) in
      if nonempty chosen'.2 then chosen' else scan_order order' raw_hashes chosen'
  end.

(** Lines 516-550, for a file [f] that is a dict: the value [hash_value]
    has after them. *)
Definition model_file_hash (f : dict) : string :=
  let raw_hashes := py_or (dict_get f "hashes") (JList []) in
  let '(hash_type, auto_v2) :=
    match raw_hashes with
    | JDict d =>
        ("AUTOV2",
         strip (py_str (py_or (py_or (dict_get d "AutoV2") (dict_get d "AUTOV2"))
                              (JStr ""))))
    | JList l =>
        let '(chosen_type, chosen_hash) := scan_order preferred_order l ("", "") in
        if nonempty chosen_hash then (chosen_type, chosen_hash) else ("AUTOV2", "")
    | _ => ("AUTOV2", "")
    end in
  if nonempty auto_v2 then hash_type +:+ " | " +:+ auto_v2 else "".

(** The loop of lines 503-551 over [files]: [(hash_value, file_name)].
    [f.get("type")] needs [f] to be a dict; the first model file ends the
    loop. *)
Fixpoint scan_files (files : list json) : py (string * string) :=
  match files with
  | [] => Ret ("", "")
  | f :: rest =>
      match f with
      | JDict fd =>
          if is_model_type (dict_get fd "type") then
            let file_name := model_file_name fd in
            let hash_value := model_file_hash fd in
            Ret (hash_value, file_name)
          else scan_files rest
      | _ => Raise AttributeError
      end
  end.

(** Lines 489-494. *)
Definition trigger_words (trained : json) : string :=
  match trained with
  | JList l => join ", " (List.filter nonempty ((λ w, strip (py_str w)) <$> l))
  | _ => strip (py_str trained)
  end.

Definition extract_fields (model_data version_data : json) : py (gmap string string) :=
  let result := empty_fields in
  if negb (truthy model_data) then Ret result
  else
    t ← get model_data "type";
    let result := <["Type" := strip (py_str (py_or t (JStr "")))]> result in
    if negb (truthy version_data) then Ret result
    else
      vp ← get version_data "publishedAt";
      mp ← get model_data "publishedAt";
      let published := py_or (py_or vp mp) (JStr "") in
      let result := <["Published" := strip (py_str published)]> result in
      bm ← get version_data "baseModel";
      bt ← get version_data "baseModelType";
      let base_model := py_or (py_or bm bt) (JStr "") in
      let result := <["Base Model" := strip (py_str base_model)]> result in
      tw ← get version_data "trainedWords";
      let trained := py_or tw (JList []) in
      let result := <["Trigger Words" := trigger_words trained]> result in
      usage ← build_usage_tips version_data;
      let result := <["Usage Tips" := usage]> result in
      fs ← get version_data "files";
      files ← py_iter (py_or fs (JList []));
      '(hash_value, file_name) ← scan_files files;
      let result := <["Hash" := hash_value]> result in
      let result := <["File Name" := file_name]> result in
      Ret result.

(** ** Orchestrator (lines 560-587) *)

(** The test [if not preview_url]. *)
Definition no_url (u : option string) : bool :=
  match u with
  | Some s => negb (nonempty s)
  | None => true
  end.

Definition extract_details_from_url (url : string)
    : py (gmap string string * option string) :=
  '(model_id, version_id) ← extract_ids_from_url url;
  html ← fetch_html url;
  next_data ← extract_next_data html;
  if is_none next_data then
    let preview_url := extract_preview_image_url html in
    let empty := empty_fields in
    preview_url ←
      (if no_url preview_url
       then fetch_preview_image_url_from_api model_id version_id
       else Ret preview_url);
    Ret (empty, preview_url)
  else
    model_data ← find_model_from_trpc next_data model_id;
    version_data ←
      (if truthy model_data then choose_model_version model_data version_id
       else Ret JNull);
    details ← extract_fields model_data version_data;
    preview_url ← fetch_preview_image_url_from_api model_id version_id;
    let preview_url :=
      if no_url preview_url then extract_preview_image_url html else preview_url in
    Ret (details, preview_url).

(** ** The specification's notions *)

(** *** Query-record resolver *)

(** A query key whose first element is a sequence of at least two strings
    that starts with "model", "getById". *)
Definition model_key (key : json) : bool :=
  match key with
  | JList (JList (JStr a :: JStr b :: _) :: _) =>
      String.eqb a "model" && String.eqb b "getById"
  | _ => false
  end.

(** The payload of a candidate descriptor: its key is a model key and its
    [state.data] is a keyed record. *)
Definition candidate_data (q : json) : option json :=
  match q with
  | JDict d =>
      if model_key (dict_get d "queryKey") then
        match assoc "state" d with
        | Some (JDict st) =>
            match dict_get st "data" with
            | JDict dd => Some (JDict dd)
            | _ => None
            end
        | _ => None
        end
      else None
  | _ => None
  end.

(** A descriptor whose shape the data model allows: a keyed record whose
    [state], when it has a model key, is absent or a keyed record. *)
Definition descriptor_ok (q : json) : bool :=
  match q with
  | JDict d =>
      if model_key (dict_get d "queryKey") then
        match assoc "state" d with
        | Some (JDict _) | None => true
        | Some _ => false
        end
      else true
  | _ => false
  end.

(** [data.id] equals the target model id. *)
Definition data_id_is (m : Z) (data : json) : bool :=
  match data with
  | JDict dd => eq_int (dict_get dd "id") m
  | _ => false
  end.

(** The selection rule over the payloads of the candidates, in scan
    order: with no target the first one; with a target the first one whose
    id is the target, else the last one; [fallback] when there is none. *)
Definition select (model_id : option Z) (fallback : json) (cands : list json) : json :=
  match model_id with
  | None => hd fallback cands
  | Some m =>
      match List.find (data_id_is m) cands with
      | Some d => d
      | None => default fallback (last cands)
      end
  end.

(** *** Version selector *)

(** The sort key of a version record: its [publishedAt] as a string. *)
Definition key_of (v : json) : string :=
  match v with
  | JDict d => py_str (py_or (dict_get d "publishedAt") (JStr ""))
  | _ => ""
  end.

(** [l'] is [l] sorted by [key] in descending order by a stable sort. *)
Definition stable_sort_desc (key : json → string) (l l' : list json) : Prop :=
  l ≡ₚ l' ∧
  Sorted (λ a b, String.le (key b) (key a)) l' ∧
  ∀ k, List.filter (λ x, String.eqb (key x) k) l' =
       List.filter (λ x, String.eqb (key x) k) l.

(** A version record with its sort key, and the descending order of keyed
    records. *)
Definition with_key (v : json) : string * json := (key_of v, v).

Definition desc (a b : string * json) : Prop := String.le b.1 a.1.

(** The stored id of [v] matches the target: [int(v.get("id"))] is it. *)
Definition id_matches (version_id : Z) (v : json) : bool :=
  match id_is version_id v with
  | Ret b => b
  | Raise _ => false
  end.

(** The integer that [int] reads from a stored id: an integer is itself, a
    truth value is 0 or 1, a finite float is cut towards zero, a text is
    read as a decimal literal; any other value gives none. *)
Definition int_read (i : json) : option Z :=
  match i with
  | JInt n => Some n
  | JBool b => Some (if b then 1 else 0)
  | JFloat x => match float_trunc x with Ret n => Some n | Raise _ => None end
  | JStr s => match int_of_str s with Ret n => Some n | Raise _ => None end
  | JNull | JList _ | JDict _ => None
  end.

(** The id of a version, as an integer: that of a keyed record whose [id]
    can be read. *)
Definition stored_id (v : json) : option Z :=
  match v with
  | JDict d => int_read (dict_get d "id")
  | _ => None
  end.

(** The stored id of a version is the target itself: [v["id"] == t]. *)
Definition exact_id (t : Z) (v : json) : bool :=
  match v with
  | JDict d => eq_int (dict_get d "id") t
  | _ => false
  end.

(** *** Field normalizer *)

(** The text of a datum: the datum as text, without the white space around
    it, and the empty text for a datum that is absent or falsy. *)
Definition text_or_empty (x : json) : string :=
  if truthy x then strip (py_str x) else "".

(** The first of two data that is truthy, and the second when neither
    is. *)
Definition first_truthy (a b : json) : json := if truthy a then a else b.

(** [settings] is absent, falsy or a keyed record. *)
Definition settings_ok (vd : dict) : bool :=
  negb (truthy (dict_get vd "settings")) || is_dict (dict_get vd "settings").

(** A file record that is not a model file. *)
Definition other_file (f : json) : bool :=
  match f with
  | JDict fd => negb (is_model_type (dict_get fd "type"))
  | _ => false
  end.

(** [fd] is the first model file of the version record [vd]; what follows
    it in [files] is left open. *)
Definition first_model_file (vd fd : dict) : Prop :=
  ∃ pre post,
    dict_get vd "files" = JList (pre ++ JDict fd :: post)%list ∧
    forallb other_file pre = true ∧
    is_model_type (dict_get fd "type") = true.

(** The files of a version record are absent or falsy, or a list in which
    any entry that is not a keyed record comes after a model file. *)
Fixpoint files_ok (files : list json) : bool :=
  match files with
  | [] => true
  | JDict fd :: rest => is_model_type (dict_get fd "type") || files_ok rest
  | _ :: _ => false
  end.

Definition version_ok (vd : dict) : bool :=
  settings_ok vd &&
  match py_or (dict_get vd "files") (JList []) with
  | JList l => files_ok l
  | _ => false
  end.

(** A text that is empty or white space only. *)
Definition blank (s : string) : bool :=
  forallb is_space (list_ascii_of_string s).

(** The preference order of the hash types. *)
Definition hash_preference : list string := ["AUTOV2"; "SHA256"; "SHA1"; "CRC32"].

(** The type of a hash record, upper-cased, and its hash. *)
Definition hash_type_of (h : json) : string :=
  match h with
  | JDict d => upper (py_str (py_or (dict_get d "type") (JStr "")))
  | _ => ""
  end.

Definition hash_value_of (h : json) : json :=
  match h with
  | JDict d => dict_get d "hash"
  | _ => JNull
  end.

(** The first record of type [t] that has a hash: the hash, trimmed. *)
Definition first_hash (t : string) (hs : list json) : option string :=
  (λ h, strip (py_str (hash_value_of h))) <$>
  List.find (λ h, is_dict h && String.eqb (hash_type_of h) t
                  && truthy (hash_value_of h)) hs.

(** The hash taken under the preference order, rendered with its type. *)
Fixpoint preferred_hash (order : list string) (hs : list json) : string :=
  match order with
  | [] => ""
  | t :: order' =>
      match first_hash t hs with
      | Some v => t +:+ " | " +:+ v
      | None => preferred_hash order' hs
      end
  end.

(** No hash of the sequence is white space only. *)
Definition no_blank_hash (hs : list json) : Prop :=
  Forall (λ h, truthy (hash_value_of h) = true →
               nonempty (strip (py_str (hash_value_of h))) = true) hs.

(** What a keyed mapping of hashes resolves to: its [AutoV2] entry, else
    its [AUTOV2] entry. *)
Definition mapping_hash (hd : dict) : string :=
  let v := py_or (dict_get hd "AutoV2") (dict_get hd "AUTOV2") in
  if truthy v && nonempty (strip (py_str v))
  then "AUTOV2 | " +:+ strip (py_str v)
  else "".

(** The mapping the normalizer returns for a model record [md] and a
    version record [vd], given the usage tips and what the scan of the
    files found. *)
Definition version_fields (md vd : dict) (usage hash_value file_name : string)
    : gmap string string :=
  <["File Name" := file_name]>
  (<["Hash" := hash_value]>
  (<["Usage Tips" := usage]>
  (<["Trigger Words" := trigger_words (py_or (dict_get vd "trainedWords") (JList []))]>
  (<["Base Model" :=
      strip (py_str (py_or (py_or (dict_get vd "baseModel")
                                  (dict_get vd "baseModelType")) (JStr "")))]>
  (<["Published" :=
      strip (py_str (py_or (py_or (dict_get vd "publishedAt")
                                  (dict_get md "publishedAt")) (JStr "")))]>
  (<["Type" := strip (py_str (py_or (dict_get md "type") (JStr "")))]>
   empty_fields)))))).

(** ** Further notions *)

(** An image served by the platform's image host, and one that also has
    the class of the page's main image. *)
Definition host_image (i : img) : bool :=
  contains "image.civitai.com" (src_of i).

Definition edge_image (i : img) : bool :=
  contains "image.civitai.com" (src_of i)
  && contains "EdgeImage_image__" (classes_of i).

(** A text with no white space at either end. *)
Definition trimmed (s : string) : Prop := lstrip s = s ∧ rstrip s = s.

(** A call that raises nothing but the exceptions of [allowed]. *)
Definition only_raises {A} (allowed : list exn) (m : py A) : Prop :=
  ∀ e, m = Raise e → e ∈ allowed.

(** A text of decimal digits only, and one that has a digit. *)
Fixpoint all_digits (g : string) : bool :=
  match g with
  | String c g' => is_digit c && all_digits g'
  | EmptyString => true
  end.

Definition digits (g : string) : bool := nonempty g && all_digits g.

End Pipeline.

(** * Proxy settings, output files and entry point *)

(** ** Proxy settings (lines 44-80) *)

(** What opening and parsing [config.json] gives. *)
Inductive config_file : Type :=
  | NoConfigFile                   (** [FileNotFoundError] *)
  | UnreadableConfigFile           (** any other exception *)
  | ConfigFile (cfg : json).

(** ** POSIX paths *)

(** [s.rfind(c)] for a character [c]; [i] is the index of the head of [s]
    and [last] the answer so far. *)
Fixpoint rfind_from (i last : Z) (c : ascii) (s : string) : Z :=
  match s with
  | String a s' => rfind_from (i + 1) (if Ascii.eqb a c then i else last) c s'
  | EmptyString => last
  end.

Definition rfind (c : ascii) (s : string) : Z := rfind_from 0 (-1) c s.

(** Whether some character of [s] differs from [c]. *)
Fixpoint has_other (c : ascii) (s : string) : bool :=
  match s with
  | String a s' => negb (Ascii.eqb a c) || has_other c s'
  | EmptyString => false
  end.

(** [s[i:j]] for [0 <= i]. *)
Definition slice (i j : Z) (s : string) : string :=
  substring (Z.to_nat i) (Z.to_nat (j - i)) s.

(** [os.path.splitext(p)]: the extension starts at the last dot, when that
    dot comes after the last slash and after a character of the file name
    that is not a dot. *)
Definition splitext (p : string) : string * string :=
  let sepIndex := rfind "/" p in
  let dotIndex := rfind "." p in
  if (sepIndex <? dotIndex) && has_other "." (slice (sepIndex + 1) dotIndex p)
  then (slice 0 dotIndex p, slice dotIndex (Z.of_nat (String.length p)) p)
  else (p, "").

(** Whether the last character of [s] is [c]. *)
Fixpoint ends_with_char (c : ascii) (s : string) : bool :=
  match s with
  | String a EmptyString => Ascii.eqb a c
  | String _ s' => ends_with_char c s'
  | EmptyString => false
  end.

(** [os.path.join(a, b)] *)
Definition path_join (a b : string) : string :=
  if starts_with "/" b then b
  else if negb (nonempty a) || ends_with_char "/" a then a +:+ b
  else a +:+ "/" +:+ b.

(** The machine the script runs on: the directory of the script, and
    whether [os.makedirs(path, exist_ok=True)] returns. *)
Class Host : Type := {
  script_dir : string;
  makedirs : string → bool
}.

Section Output.

Context {rt : Runtime} {host : Host}.

(** The proxy settings, from what reading [config.json] gave. *)
Definition load_proxies_from_config (config : config_file)
    : py (option (gmap string string)) :=
  match config with
  | NoConfigFile => Ret None
  | UnreadableConfigFile => Ret None
  | ConfigFile cfg =>
      enable_proxy ← truthy <$> get cfg "enable_proxy";
      if negb enable_proxy then Ret None
      else
        h ← get_default cfg "proxy_host" (JStr "127.0.0.1");
        let host := strip (py_str h) in
        let host := if nonempty host then host else "127.0.0.1" in
        port_raw ← get_default cfg "proxy_port" (JInt 0);
        match py_int port_raw with
        | Raise _ => Ret None
        | Ret port =>
            if port <=? 0 then Ret None
            else
              let proxy_url := "http://" +:+ host +:+ ":" +:+ pretty port in
              Ret (Some (<["https" := proxy_url]> (<["http" := proxy_url]> ∅)))
        end
  end.

(** ** Output files (lines 344-454) *)

Definition output_dir : string := path_join script_dir "output".

(** [target_path] of [save_preview_image]. *)
Definition preview_target (model_file_name : string) : string :=
  let base := (splitext model_file_name).1 in
  let base := if nonempty base then base else "preview" in
  path_join output_dir (base +:+ ".png").

(** [txt_path] of [save_details_txt]. *)
Definition details_target (details : gmap string string) : string :=
  let file_name := default "" (details !! "File Name") in
  let base := (splitext file_name).1 in
  let base := if nonempty base then base else "model" in
  path_join output_dir (base +:+ ".txt").

(** ** Entry point (lines 593-626) *)

Definition FAILED : string :=
  "failed to fetch data. please check the url and try again.".

(** The status [process_url] returns.  The two savers guard their download
    and their writes with handlers of their own, so that creating the output
    directory, their first step, is the one call of theirs that can raise. *)
Definition process_url (url : option string) : string :=
  let url := strip (default "" url) in
  if negb (starts_with "http" url) then FAILED
  else
    match extract_details_from_url url with
    | Raise _ => FAILED
    | Ret (details, preview_url) =>
        if makedirs output_dir then "done~!" else FAILED
    end.

End Output.

(** * Sample runtime and records *)

Definition sample_url : string := "https://civitai.com/models/7/example".

(** A page whose embedded script holds a lone opening brace. *)
Definition broken_page : string :=
  "<script id=" +:+ dquote +:+ "__NEXT_DATA__" +:+ dquote +:+ ">{</script>".

(** A runtime with no network: every request raises.  On the texts the
    examples use, its other answers are those of the libraries:
    [re.search] finds 7 after "/models/" in [sample_url] and the brace as
    the script body of [broken_page], and [json.loads] rejects the
    brace. *)
Definition offline : Runtime := {|
  float_str := λ _, "0.0";
  json_loads := λ s, if String.eqb s "{}" then Some (JDict []) else None;
  re_search := λ pattern _ s,
    if String.eqb pattern next_data_pattern && String.eqb s broken_page
    then Some "{"
    else if String.eqb pattern "/models/(\d+)" && String.eqb s sample_url
    then Some "7"
    else None;
  requests_get := λ _, None;
  requests_head := λ _, None;
  unquote := λ s, s;
  soup_find_all_img := λ _, Some []
|}.

(** A cached "model by id" query descriptor whose record has the id [i]. *)
Definition model_query (i : Z) : json :=
  JDict [("queryKey", JList [JList [JStr "model"; JStr "getById"];
                             JDict [("input", JDict [("id", JInt i)])]]);
         ("state", JDict [("data", JDict [("id", JInt i)])])].

Definition model_record (i : Z) : json := JDict [("id", JInt i)].

(** An embedded state with the given query descriptors. *)
Definition state_with (queries : list json) : json :=
  JDict [("props", JDict [("pageProps", JDict [("trpcState",
    JDict [("json", JDict [("queries", JList queries)])])])])].

(** A version record published at [p]. *)
Definition published (p : string) : json := JDict [("publishedAt", JStr p)].

(** A version record with the stored id [i]. *)
Definition version_with_id (i : json) : json := JDict [("id", i)].

(** The float 12.5. *)
Definition twelve_and_a_half : spec_float := S754_finite false 25 (-1).

Definition sample_model : dict := [("type", JStr "LORA")].

(** A file record. *)
Definition file_record (type : string) (more : dict) : json :=
  JDict (("type", JStr type) :: more).

Definition hash_record (type hash : string) : json :=
  JDict [("type", JStr type); ("hash", JStr hash)].

(** A version record with the given files. *)
Definition version_with_files (files : list json) : dict :=
  [("id", JInt 1); ("files", JList files)].

(** A page whose embedded script holds the empty object. *)
Definition state_page : string :=
  "<script id=" +:+ dquote +:+ "__NEXT_DATA__" +:+ dquote +:+ ">{}</script>".

(** A page with no embedded state and two images, a thumbnail and, after
    it, the main image. *)
Definition gallery_url : string := "https://civitai.com/images".

Definition gallery_page : string :=
  "<img src=https://image.civitai.com/t.png>" +:+
  "<img class=EdgeImage_image__x src=https://image.civitai.com/m.png>".

Definition thumbnail : img :=
  {| img_src := Some "https://image.civitai.com/t.png"; img_class := None |}.

Definition main_image : img :=
  {| img_src := Some "https://image.civitai.com/m.png";
     img_class := Some ["EdgeImage_image__x"] |}.

(** The API's answer for model 7: one version, with one image. *)
Definition api_image : dict := [("url", JStr "https://image.civitai.com/a.png")].

Definition api_version : dict := [("id", JInt 1); ("images", JList [JDict api_image])].

Definition api_record : dict := [("modelVersions", JList [JDict api_version])].

Definition api_text : string :=
  "{" +:+ dquote +:+ "modelVersions" +:+ dquote +:+ ": [{" +:+
  dquote +:+ "id" +:+ dquote +:+ ": 1, " +:+
  dquote +:+ "images" +:+ dquote +:+ ": [{" +:+
  dquote +:+ "url" +:+ dquote +:+ ": " +:+
  dquote +:+ "https://image.civitai.com/a.png" +:+ dquote +:+ "}]}]}".

Definition ok (body : string) : response :=
  {| status_code := 200; headers := []; text := body |}.

(** A runtime with a network: [sample_url] has [state_page],
    [gallery_url] has [gallery_page], and the API knows model 7 and answers
    with an empty list for model 8. *)
Definition online : Runtime := {|
  float_str := λ _, "0.0";
  json_loads := λ s,
    if String.eqb s "{}" then Some (JDict [])
    else if String.eqb s "[]" then Some (JList [])
    else if String.eqb s api_text then Some (JDict api_record)
    else None;
  re_search := λ pattern _ s,
    if String.eqb pattern next_data_pattern && String.eqb s state_page
    then Some "{}"
    else if String.eqb pattern "/models/(\d+)" && String.eqb s sample_url
    then Some "7"
    else None;
  requests_get := λ url,
    if String.eqb url sample_url then Some (ok state_page)
    else if String.eqb url gallery_url then Some (ok gallery_page)
    else if String.eqb url (api_url 7) then Some (ok api_text)
    else if String.eqb url (api_url 8) then Some (ok "[]")
    else None;
  requests_head := λ _, None;
  unquote := λ s, s;
  soup_find_all_img := λ html,
    if String.eqb html gallery_page then Some [thumbnail; main_image] else Some []
|}.

(** A machine on which the output directory can be made. *)
Definition desk : Host :=
  {| script_dir := "/home/user/vincenzo"; makedirs := λ _, true |}.

(** A configuration that turns the proxy on, with a port and no host. *)
Definition proxy_config : config_file :=
  ConfigFile (JDict [("enable_proxy", JBool true); ("proxy_port", JInt 49254)]).

(** A model id of 4301 digits, an address that has it, and a runtime whose
    search finds it there. *)
Definition long_id : string := string_of_list_ascii (repeat "1"%char 4301).

Definition long_url : string := "https://civitai.com/models/" +:+ long_id.

Definition long_ids : Runtime := {|
  float_str := λ _, "0.0";
  json_loads := λ _, None;
  re_search := λ pattern _ s,
    if String.eqb pattern "/models/(\d+)" && String.eqb s long_url
    then Some long_id
    else None;
  requests_get := λ _, None;
  requests_head := λ _, None;
  unquote := λ s, s;
  soup_find_all_img := λ _, Some []
|}.

(** * Properties *)

Section Properties.
Context {rt : Runtime}.

Lemma bind_Ret {A B} (a : A) (f : A → py B) : (Ret a ≫= f) = f a.
Proof. reflexivity. Qed.

Lemma bind_Raise {A B} (e : exn) (f : A → py B) : (Raise e ≫= f) = Raise e.
Proof. reflexivity. Qed.

Lemma bind_Ret_inv {A B} (m : py A) (f : A → py B) (b : B) :
  m ≫= f = Ret b → ∃ a, m = Ret a ∧ f a = Ret b.
Proof. destruct m as [a|e]; [eauto | discriminate]. Qed.

Lemma truthy_dict_cons kv (d : dict) : truthy (JDict (kv :: d)) = true.
Proof. reflexivity. Qed.

Lemma get_dict (d : dict) k : get (JDict d) k = Ret (dict_get d k).
Proof. reflexivity. Qed.

Lemma dom_empty_fields :
  dom empty_fields = (list_to_set TARGET_FIELDS : gset string).
Proof.
  unfold empty_fields, TARGET_FIELDS. simpl.
  rewrite !dom_insert_L, dom_empty_L. reflexivity.
Qed.

Lemma dom_version_fields md vd u h f :
  dom (version_fields md vd u h f) = (list_to_set TARGET_FIELDS : gset string).
Proof.
  unfold version_fields. rewrite !dom_insert_L, dom_empty_fields.
  unfold TARGET_FIELDS. set_solver.
Qed.

Lemma extract_fields_no_model md vd :
  truthy md = false → extract_fields md vd = Ret empty_fields.
Proof. intros H. unfold extract_fields. by rewrite H. Qed.

Lemma extract_fields_no_version (md : dict) vd :
  md ≠ [] → truthy vd = false →
  extract_fields (JDict md) vd =
    Ret (<["Type" := strip (py_str (py_or (dict_get md "type") (JStr "")))]> empty_fields).
Proof.
  intros Hmd Hvd. unfold extract_fields.
  destruct md as [|kv md]; [done|]. simpl. by rewrite Hvd.
Qed.

Lemma extract_fields_version (md vd : dict) :
  md ≠ [] → vd ≠ [] →
  extract_fields (JDict md) (JDict vd) =
    match build_usage_tips (JDict vd) with
    | Raise e => Raise e
    | Ret usage =>
        match py_iter (py_or (dict_get vd "files") (JList [])) with
        | Raise e => Raise e
        | Ret files =>
            match scan_files files with
            | Raise e => Raise e
            | Ret hf => Ret (version_fields md vd usage hf.1 hf.2)
            end
        end
    end.
Proof.
  intros Hmd Hvd. unfold extract_fields.
  destruct md as [|kv md]; [done|]. destruct vd as [|kv' vd]; [done|].
  cbn [truthy negb get]. rewrite !bind_Ret.
  destruct (build_usage_tips _) as [u|e]; [|reflexivity]. rewrite !bind_Ret.
  destruct (py_iter _) as [files|e]; [|reflexivity]. rewrite !bind_Ret.
  destruct (scan_files files) as [[h f]|e]; reflexivity.
Qed.

Lemma build_usage_tips_raises (vd : dict) :
  raises (build_usage_tips (JDict vd)) = negb (settings_ok vd).
Proof.
  unfold build_usage_tips, settings_ok. rewrite !get_dict, !bind_Ret.
  unfold py_or.
  destruct (dict_get vd "settings") as [| b | n | x | s | l | d]; simpl; try done.
  - by destruct b.
  - by destruct (n =? 0).
  - by destruct (float_is_zero x).
  - by destruct (String.eqb s "").
  - by destruct l.
  - by destruct d.
Qed.

Lemma build_usage_tips_ok (vd : dict) :
  settings_ok vd = true → ∃ u, build_usage_tips (JDict vd) = Ret u.
Proof.
  intros H. pose proof (build_usage_tips_raises vd) as Hr. rewrite H in Hr.
  destruct (build_usage_tips (JDict vd)) as [u|e]; [eauto | discriminate].
Qed.

Lemma scan_files_raises (l : list json) :
  raises (scan_files l) = negb (files_ok l).
Proof.
  induction l as [|f l IH]; [done|].
  destruct f as [| | | | | |fd]; simpl; try done.
  destruct (is_model_type (dict_get fd "type")); simpl; [done|]. exact IH.
Qed.

Lemma scan_files_first (pre post : list json) (fd : dict) :
  forallb other_file pre = true →
  is_model_type (dict_get fd "type") = true →
  scan_files (pre ++ JDict fd :: post) =
    Ret (model_file_hash fd, model_file_name fd).
Proof.
  intros Hpre Hfd. induction pre as [|g pre IH]; simpl.
  - by rewrite Hfd.
  - simpl in Hpre. apply andb_prop in Hpre as [Hg Hpre].
    destruct g as [| | | | | |gd]; simpl in Hg; try done.
    apply negb_true_iff in Hg. rewrite Hg. by apply IH.
Qed.

Lemma first_model_file_nonempty (vd fd : dict) : first_model_file vd fd → vd ≠ [].
Proof. intros (pre & post & H & _) ->. discriminate H. Qed.

Lemma extract_fields_model_file (md vd fd : dict) :
  md ≠ [] → settings_ok vd = true → first_model_file vd fd →
  ∃ u, build_usage_tips (JDict vd) = Ret u ∧
       extract_fields (JDict md) (JDict vd) =
         Ret (version_fields md vd u (model_file_hash fd) (model_file_name fd)).
Proof.
  intros Hmd Hs Hf. pose proof (first_model_file_nonempty _ _ Hf) as Hvd.
  destruct (build_usage_tips_ok vd Hs) as [u Hu]. exists u. split; [done|].
  rewrite extract_fields_version by done. rewrite Hu.
  destruct Hf as (pre & post & Hfiles & Hpre & Hfd). rewrite Hfiles.
  assert (py_or (JList (pre ++ JDict fd :: post)) (JList []) =
          JList (pre ++ JDict fd :: post)) as ->.
  { unfold py_or. by destruct pre. }
  simpl. by rewrite scan_files_first.
Qed.

Lemma lookup_version_fields_hash md vd u h f :
  version_fields md vd u h f !! "Hash" = Some h.
Proof. unfold version_fields. by simplify_map_eq. Qed.

Lemma lookup_version_fields_file_name md vd u h f :
  version_fields md vd u h f !! "File Name" = Some f.
Proof. unfold version_fields. by simplify_map_eq. Qed.

Lemma lookup_version_fields_trigger md vd u h f :
  version_fields md vd u h f !! "Trigger Words" =
    Some (trigger_words (py_or (dict_get vd "trainedWords") (JList []))).
Proof. unfold version_fields. by simplify_map_eq. Qed.

Lemma extract_fields_raises (md vd : dict) :
  md ≠ [] → vd ≠ [] →
  raises (extract_fields (JDict md) (JDict vd)) = negb (version_ok vd).
Proof.
  intros Hmd Hvd. rewrite extract_fields_version by done. unfold version_ok.
  pose proof (build_usage_tips_raises vd) as Hu.
  destruct (build_usage_tips (JDict vd)) as [u|e]; simpl in Hu.
  2:{ symmetry in Hu. apply negb_true_iff in Hu. by rewrite Hu. }
  symmetry in Hu. apply negb_false_iff in Hu. rewrite Hu. simpl.
  unfold py_or.
  destruct (dict_get vd "files") as [| b | n | x | s | l | d]; simpl; try done.
  - by destruct b.
  - by destruct (n =? 0).
  - by destruct (float_is_zero x).
  - destruct s as [|c s]; simpl; done.
  - destruct l as [|f l]; [done|]. cbn [truthy py_iter].
    pose proof (scan_files_raises (f :: l)) as Hr.
    by destruct (scan_files (f :: l)).
  - destruct d as [|kv d]; done.
Qed.

Lemma extract_fields_dom (md vd : json) (r : gmap string string) :
  extract_fields md vd = Ret r → dom r = (list_to_set TARGET_FIELDS : gset string).
Proof.
  intros H. destruct (truthy md) eqn:Hmd.
  2:{ rewrite extract_fields_no_model in H by done. injection H as <-.
      apply dom_empty_fields. }
  destruct md as [| | | | | |d]; try (unfold extract_fields in H; rewrite Hmd in H; discriminate H).
  assert (d ≠ []) as Hd by (by intros ->).
  destruct (truthy vd) eqn:Hvd.
  2:{ rewrite extract_fields_no_version in H by done. injection H as <-.
      rewrite dom_insert_L, dom_empty_fields. unfold TARGET_FIELDS. set_solver. }
  destruct vd as [| | | | | |v];
    try (unfold extract_fields in H; rewrite Hmd, Hvd in H; discriminate H).
  assert (v ≠ []) as Hv by (by intros ->).
  rewrite extract_fields_version in H by done.
  destruct (build_usage_tips _); [|done]. destruct (py_iter _); [|done].
  destruct (scan_files _); [|done]. injection H as <-. apply dom_version_fields.
Qed.


Lemma extract_fields_ok (md vd : dict) :
  md ≠ [] → vd ≠ [] → version_ok vd = true →
  ∃ u h f, extract_fields (JDict md) (JDict vd) = Ret (version_fields md vd u h f).
Proof.
  intros Hmd Hvd Hok. pose proof (extract_fields_raises md vd Hmd Hvd) as Hr.
  rewrite Hok in Hr. rewrite extract_fields_version in * by done.
  destruct (build_usage_tips _) as [u|]; [|done].
  destruct (py_iter _) as [l|]; [|done].
  destruct (scan_files l) as [hf|]; [|done]. by exists u, hf.1, hf.2.
Qed.

Lemma rstrip_empty (s : string) :
  String.eqb (rstrip s) "" = blank s.
Proof.
  unfold blank. induction s as [|c s IH]; [done|]. simpl.
  destruct (rstrip s) as [|c' r]; simpl in *.
  - rewrite <- IH. by destruct (is_space c).
  - rewrite <- IH. by rewrite andb_false_r.
Qed.

Lemma blank_lstrip (s : string) : blank (lstrip s) = blank s.
Proof.
  unfold blank. induction s as [|c s IH]; [done|]. simpl.
  destruct (is_space c) eqn:Hc; [done|]. simpl. by rewrite Hc.
Qed.

Lemma nonempty_strip (s : string) : nonempty (strip s) = negb (blank s).
Proof. unfold nonempty, strip. by rewrite rstrip_empty, blank_lstrip. Qed.

Lemma text_or_empty_or (x : json) :
  strip (py_str (py_or x (JStr ""))) = text_or_empty x.
Proof. unfold py_or, text_or_empty. by destruct (truthy x). Qed.

Lemma lookup_version_fields_type md vd u h f :
  version_fields md vd u h f !! "Type" = Some (text_or_empty (dict_get md "type")).
Proof.
  unfold version_fields. rewrite <- text_or_empty_or.
  rewrite !lookup_insert_ne by done. apply lookup_insert_eq.
Qed.

Lemma lookup_version_fields_published md vd u h f :
  version_fields md vd u h f !! "Published" =
    Some (text_or_empty (first_truthy (dict_get vd "publishedAt")
                                      (dict_get md "publishedAt"))).
Proof.
  unfold version_fields. rewrite <- text_or_empty_or.
  rewrite !lookup_insert_ne by done. apply lookup_insert_eq.
Qed.

Lemma lookup_version_fields_base_model md vd u h f :
  version_fields md vd u h f !! "Base Model" =
    Some (text_or_empty (first_truthy (dict_get vd "baseModel")
                                      (dict_get vd "baseModelType"))).
Proof.
  unfold version_fields. rewrite <- text_or_empty_or.
  rewrite !lookup_insert_ne by done. apply lookup_insert_eq.
Qed.

Lemma lookup_version_fields_usage md vd u h f :
  version_fields md vd u h f !! "Usage Tips" = Some u.
Proof. unfold version_fields. by simplify_map_eq. Qed.

Lemma text_or_empty_falsy (a b : json) :
  truthy a = false → truthy b = false → text_or_empty (first_truthy a b) = "".
Proof. intros Ha Hb. unfold first_truthy, text_or_empty. by rewrite Ha, Hb. Qed.

(** Without a clip skip and without a strength the usage tips are the empty
    text. *)
Lemma build_usage_tips_default (vd : dict) (u : string) :
  build_usage_tips (JDict vd) = Ret u →
  dict_get vd "clipSkip" = JNull →
  (∀ sd, dict_get vd "settings" = JDict sd → dict_get sd "strength" = JNull) →
  u = "".
Proof.
  unfold build_usage_tips. rewrite !get_dict, !bind_Ret. cbv zeta.
  intros H Hc Hs. rewrite Hc in H. unfold py_or in H.
  destruct (truthy (dict_get vd "settings")) eqn:Ht.
  - destruct (dict_get vd "settings") as [| | | | | |sd] eqn:E; try done.
    rewrite !get_dict, !bind_Ret, (Hs sd eq_refl) in H. by injection H as <-.
  - rewrite !get_dict, !bind_Ret in H. by injection H as <-.
Qed.

(** Files none of which is a model file give no hash and no file name. *)
Lemma scan_files_other (fs : list json) :
  forallb other_file fs = true → scan_files fs = Ret ("", "").
Proof.
  induction fs as [|f fs IH]; [done|]. cbn [forallb]. intros [Hf Hfs]%andb_prop.
  destruct f as [| | | | | |fd]; try done. cbn [scan_files other_file] in *.
  apply negb_true_iff in Hf. rewrite Hf. by apply IH.
Qed.

(** C8 (ResolvedFields invariant).  Whatever the model data and the
    version data are, a mapping that [extract_fields] returns has exactly
    the seven keys of [TARGET_FIELDS], no fewer and no more, with text
    values.  A value is the empty text unless the data give it: with the
    model data absent every value is empty; with the version data absent
    only [Type] is filled in, with the model's type as trimmed text, or
    the empty text when the model has none.  On a model record and a
    version record of the shape the data model gives it, a mapping is
    returned, in which [Type] is as before, [Published] is the version's
    date or else the model's, [Base Model] is the version's base model or
    else its base model type, each as trimmed text and empty when both data
    are absent or falsy; [Trigger Words] is empty with no trained words,
    [Usage Tips] is empty with no clip skip and no strength, and [Hash]
    and [File Name] are empty with no files or no model file among
    them. *)
Theorem extract_fields_seven_keys (md vd : json) :
  (∀ r, extract_fields md vd = Ret r →
        dom r = list_to_set TARGET_FIELDS ∧ size r = 7%nat) ∧
  (truthy md = false →
   extract_fields md vd = Ret empty_fields ∧
   ∀ k, k ∈ TARGET_FIELDS → empty_fields !! k = Some "") ∧
  (∀ d, md = JDict d → d ≠ [] → truthy vd = false →
        ∃ r, extract_fields md vd = Ret r ∧
             (∀ k, k ∈ TARGET_FIELDS → k ≠ "Type" → r !! k = Some "") ∧
             r !! "Type" = Some (text_or_empty (dict_get d "type")) ∧
             (truthy (dict_get d "type") = false → r !! "Type" = Some "")) ∧
  (∀ d v, md = JDict d → vd = JDict v → d ≠ [] → v ≠ [] →
          version_ok v = true →
          ∃ r, extract_fields md vd = Ret r ∧
               r !! "Type" = Some (text_or_empty (dict_get d "type")) ∧
               r !! "Published" =
                 Some (text_or_empty (first_truthy (dict_get v "publishedAt")
                                                   (dict_get d "publishedAt"))) ∧
               r !! "Base Model" =
                 Some (text_or_empty (first_truthy (dict_get v "baseModel")
                                                   (dict_get v "baseModelType"))) ∧
               (truthy (dict_get d "type") = false → r !! "Type" = Some "") ∧
               (truthy (dict_get v "publishedAt") = false →
                truthy (dict_get d "publishedAt") = false →
                r !! "Published" = Some "") ∧
               (truthy (dict_get v "baseModel") = false →
                truthy (dict_get v "baseModelType") = false →
                r !! "Base Model" = Some "") ∧
               (truthy (dict_get v "trainedWords") = false →
                r !! "Trigger Words" = Some "") ∧
               (dict_get v "clipSkip" = JNull →
                (∀ sd, dict_get v "settings" = JDict sd →
                       dict_get sd "strength" = JNull) →
                r !! "Usage Tips" = Some "") ∧
               (truthy (dict_get v "files") = false →
                r !! "Hash" = Some "" ∧ r !! "File Name" = Some "") ∧
               (∀ fs, dict_get v "files" = JList fs →
                      forallb other_file fs = true →
                      r !! "Hash" = Some "" ∧ r !! "File Name" = Some "")).
Proof.
  split; [|split; [|split]].
  - intros r Hr. apply extract_fields_dom in Hr. split; [done|].
    rewrite <- size_dom, Hr. rewrite size_list_to_set; [done|].
    apply (bool_decide_unpack _). by vm_compute.
  - intros Hmd. split; [by apply extract_fields_no_model|].
    intros k Hk. unfold TARGET_FIELDS in Hk. unfold empty_fields, TARGET_FIELDS.
    simpl. set_unfold. destruct_or!; subst; by simplify_map_eq.
  - intros d -> Hd Hvd. eexists. split; [by apply extract_fields_no_version|].
    rewrite text_or_empty_or. split_and!.
    + intros k Hk Hne. rewrite lookup_insert_ne by done.
      unfold TARGET_FIELDS in Hk. unfold empty_fields, TARGET_FIELDS.
      simpl. set_unfold. destruct_or!; subst; by simplify_map_eq.
    + by simplify_map_eq.
    + intros Ht. unfold text_or_empty. rewrite Ht. by simplify_map_eq.
  - intros d v -> -> Hd Hv Hok.
    destruct (extract_fields_ok d v Hd Hv Hok) as (u0 & h0 & f0 & H).
    rewrite extract_fields_version in H |- * by done.
    destruct (build_usage_tips (JDict v)) as [u|] eqn:Hu; [|done].
    destruct (py_iter (py_or (dict_get v "files") (JList []))) as [files|] eqn:Hfiles;
      [|done].
    destruct (scan_files files) as [[h f]|] eqn:Hscan; [|done]. clear H.
    cbn [fst snd]. eexists. split; [reflexivity|].
    rewrite lookup_version_fields_type, lookup_version_fields_published,
      lookup_version_fields_base_model, lookup_version_fields_trigger,
      lookup_version_fields_usage, lookup_version_fields_hash,
      lookup_version_fields_file_name.
    split_and!; try done.
    + intros Ht. unfold text_or_empty. by rewrite Ht.
    + intros Ha Hb. by rewrite text_or_empty_falsy.
    + intros Ha Hb. by rewrite text_or_empty_falsy.
    + intros Ht. unfold py_or. by rewrite Ht.
    + intros Hc Hs. by rewrite (build_usage_tips_default v u Hu Hc Hs).
    + intros Ht. unfold py_or in Hfiles. rewrite Ht in Hfiles.
      injection Hfiles as <-. by injection Hscan as <- <-.
    + intros fs Hfs Hother. rewrite Hfs in Hfiles.
      assert (files = fs) as ->.
      { destruct fs; by injection Hfiles as <-. }
      rewrite (scan_files_other fs Hother) in Hscan. by injection Hscan as <- <-.
Qed.

Lemma filter_nonempty_strip (l : list json) :
  List.filter nonempty ((λ w, strip (py_str w)) <$> l) =
  (λ w, strip (py_str w)) <$> List.filter (λ w, negb (blank (py_str w))) l.
Proof.
  induction l as [|w l IH]; [done|].
  rewrite fmap_cons. cbn [List.filter]. rewrite nonempty_strip, IH.
  by destruct (blank (py_str w)).
Qed.

(** C9 (trigger words), as amended.  For a version record whose
    [trainedWords] is a list, [Trigger Words] is the entries that are not
    blank, each turned to text and trimmed, joined with a comma and a
    space.  A value that is not a list and is truthy is turned to text and
    trimmed, without joining; one that is falsy ([None], [False], [0], the
    empty text, the empty dict) gives the empty text. *)
Theorem trigger_words_normalized (md vd : dict) :
  md ≠ [] → vd ≠ [] → version_ok vd = true →
  ∃ r, extract_fields (JDict md) (JDict vd) = Ret r ∧
       r !! "Trigger Words" = Some
         (match dict_get vd "trainedWords" with
          | JList l =>
              join ", " ((λ w, strip (py_str w)) <$>
                         List.filter (λ w, negb (blank (py_str w))) l)
          | v => if truthy v then strip (py_str v) else ""
          end).
Proof.
  intros Hmd Hvd Hok.
  destruct (extract_fields_ok md vd Hmd Hvd Hok) as (u & h & f & H).
  eexists. split; [exact H|]. rewrite lookup_version_fields_trigger. f_equal.
  unfold py_or.
  destruct (dict_get vd "trainedWords") as [| b | n | x | s | l | d];
    [done | by destruct b | simpl; by destruct (n =? 0)
    | simpl; by destruct (float_is_zero x)
    | simpl; by destruct (String.eqb s "") | | by destruct d].
  destruct l as [|w l]; [done|]. cbn [truthy trigger_words].
  by rewrite filter_nonempty_strip.
Qed.


Lemma model_file_hash_mapping (fd hd : dict) :
  dict_get fd "hashes" = JDict hd → model_file_hash fd = mapping_hash hd.
Proof.
  intros H. unfold model_file_hash, mapping_hash. rewrite H.
  destruct hd as [|kv hd]; [done|]. cbn [py_or truthy].
  set (v := py_or (dict_get (kv :: hd) "AutoV2") (dict_get (kv :: hd) "AUTOV2")).
  assert (py_or v (JStr "") = if truthy v then v else JStr "") as -> by done.
  destruct (truthy v); simpl; [|done].
  unfold nonempty. by destruct (String.eqb (strip (py_str v)) "").
Qed.

Lemma mapping_hash_none (hd : dict) :
  truthy (dict_get hd "AutoV2") = false → truthy (dict_get hd "AUTOV2") = false →
  mapping_hash hd = "".
Proof. intros H1 H2. unfold mapping_hash, py_or. by rewrite H1, H2. Qed.

(** C10 (hashes as a keyed mapping).  When the [hashes] of the model file
    is a dict, the [Hash] field is read from its [AutoV2] entry, else its
    [AUTOV2] entry, and from nothing else: when neither holds a truthy
    value the field is empty, whatever other hash types the dict has. *)
Theorem mapping_hashes_autov2_only (md vd fd hd : dict) :
  md ≠ [] → settings_ok vd = true → first_model_file vd fd →
  dict_get fd "hashes" = JDict hd →
  ∃ r, extract_fields (JDict md) (JDict vd) = Ret r ∧
       r !! "Hash" = Some (mapping_hash hd) ∧
       (truthy (dict_get hd "AutoV2") = false →
        truthy (dict_get hd "AUTOV2") = false →
        r !! "Hash" = Some "").
Proof.
  intros Hmd Hs Hf Hh.
  destruct (extract_fields_model_file md vd fd Hmd Hs Hf) as (u & _ & H).
  eexists. split; [exact H|]. rewrite lookup_version_fields_hash.
  rewrite (model_file_hash_mapping fd hd Hh). split; [done|].
  intros H1 H2. by rewrite mapping_hash_none.
Qed.

Lemma scan_hashes_first_hash (t : string) (hs : list json) :
  scan_hashes t hs = (λ v, (upper t, v)) <$> first_hash (upper t) hs.
Proof.
  unfold first_hash. induction hs as [|h hs IH]; [done|].
  destruct h as [| | | | | |d]; try exact IH. cbn [scan_hashes List.find is_dict andb].
  cbn [hash_type_of hash_value_of].
  destruct (String.eqb_spec (upper (py_str (py_or (dict_get d "type") (JStr "")))) (upper t)) as [->|Hne];
    cbn [andb]; [|exact IH].
  destruct (truthy (dict_get d "hash")); [done | exact IH].
Qed.

Lemma first_hash_nonempty (t : string) (hs : list json) (v : string) :
  no_blank_hash hs → first_hash t hs = Some v → nonempty v = true.
Proof.
  unfold first_hash. intros Hnb H.
  destruct (List.find _ hs) as [h|] eqn:Hfind; [|done]. injection H as <-.
  apply find_some in Hfind as [Hin Hc].
  unfold no_blank_hash in Hnb. rewrite Forall_forall in Hnb.
  apply Hnb; [by apply list_elem_of_In|].
  apply andb_prop in Hc as [_ Hc]. done.
Qed.

Lemma scan_order_preferred (order : list string) (hs : list json) (chosen : string * string) :
  no_blank_hash hs → nonempty chosen.2 = false →
  (let c := scan_order order hs chosen in
   if nonempty c.2 then c.1 +:+ " | " +:+ c.2 else "") =
  preferred_hash (upper <$> order) hs.
Proof.
  intros Hnb. revert chosen.
  induction order as [|t order IH]; intros chosen Hc; simpl.
  - by rewrite Hc.
  - rewrite scan_hashes_first_hash.
    destruct (first_hash (upper t) hs) as [v|] eqn:Hv; simpl.
    + pose proof (first_hash_nonempty _ _ _ Hnb Hv) as Hn.
      rewrite Hn. simpl. by rewrite Hn.
    + rewrite Hc. by apply IH.
Qed.

Lemma model_file_hash_list (fd : dict) (hs : list json) :
  dict_get fd "hashes" = JList hs → no_blank_hash hs →
  model_file_hash fd = preferred_hash hash_preference hs.
Proof.
  intros H Hnb. unfold model_file_hash. rewrite H.
  assert (py_or (JList hs) (JList []) = JList hs) as -> by (by destruct hs).
  pose proof (scan_order_preferred preferred_order hs ("", "") Hnb eq_refl) as Hp.
  cbn zeta in Hp. destruct (scan_order preferred_order hs ("", "")) as [ct ch].
  cbn [fst snd] in Hp.
  assert (preferred_hash (upper <$> preferred_order) hs =
          preferred_hash hash_preference hs) as Heq.
  { change (upper <$> preferred_order)
      with ["AUTOV2"; "AUTOV2"; "SHA256"; "SHA1"; "CRC32"].
    unfold hash_preference. cbn [preferred_hash].
    by destruct (first_hash "AUTOV2" hs). }
  rewrite <- Heq, <- Hp. destruct (nonempty ch) eqn:Hch; simpl; [|done].
  by rewrite Hch.
Qed.

(** C7 (hashes as a sequence), as amended.  When the [hashes] of the
    model file is a list none of whose hashes is white space only, the
    [Hash] field is the first hash found under the order AUTOV2, SHA256,
    SHA1, CRC32, types compared without case, rendered as the type, a bar
    and the trimmed hash. *)
Theorem list_hashes_preference (md vd fd : dict) (hs : list json) :
  md ≠ [] → settings_ok vd = true → first_model_file vd fd →
  dict_get fd "hashes" = JList hs → no_blank_hash hs →
  ∃ r, extract_fields (JDict md) (JDict vd) = Ret r ∧
       r !! "Hash" = Some (preferred_hash hash_preference hs).
Proof.
  intros Hmd Hs Hf Hh Hnb.
  destruct (extract_fields_model_file md vd fd Hmd Hs Hf) as (u & _ & H).
  eexists. split; [exact H|]. rewrite lookup_version_fields_hash.
  by rewrite (model_file_hash_list fd hs Hh Hnb).
Qed.

Lemma is_model_type_exact (t : json) :
  is_model_type t = true ↔ t = JStr "Model" ∨ t = JStr "model".
Proof.
  unfold is_model_type, eq_str. split.
  - destruct t as [| | | |s| |]; try done. intros H.
    apply orb_prop in H as [H|H]; apply String.eqb_eq in H; subst; auto.
  - by intros [-> | ->].
Qed.

(** C4 (model-file selection), as amended.  The files are searched in
    their order and the first one whose [type] is exactly "Model" or
    "model" is the model file: [Hash] and [File Name] are its, whatever
    follows it in the list.  The files before it are keyed records with
    any other [type]. *)
Theorem first_exact_model_file (md vd fd : dict) (pre post : list json) :
  md ≠ [] → settings_ok vd = true →
  dict_get vd "files" = JList (pre ++ JDict fd :: post) →
  forallb other_file pre = true →
  dict_get fd "type" = JStr "Model" ∨ dict_get fd "type" = JStr "model" →
  (∃ r, extract_fields (JDict md) (JDict vd) = Ret r ∧
        r !! "Hash" = Some (model_file_hash fd) ∧
        r !! "File Name" = Some (model_file_name fd)) ∧
  (∀ g, other_file g = true ↔
        ∃ gd, g = JDict gd ∧ dict_get gd "type" ≠ JStr "Model"
                           ∧ dict_get gd "type" ≠ JStr "model").
Proof.
  intros Hmd Hs Hfiles Hpre Hty. split.
  - assert (first_model_file vd fd) as Hf.
    { exists pre, post. split_and!; [done..|]. by apply is_model_type_exact. }
    destruct (extract_fields_model_file md vd fd Hmd Hs Hf) as (u & _ & H).
    eexists. split; [exact H|].
    by rewrite lookup_version_fields_hash, lookup_version_fields_file_name.
  - intros g. unfold other_file. split.
    + destruct g as [| | | | | |gd]; try done. intros H.
      apply negb_true_iff in H. exists gd. split; [done|].
      split; intros Heq; rewrite Heq in H; done.
    + intros (gd & -> & H1 & H2). apply negb_true_iff.
      destruct (is_model_type (dict_get gd "type")) eqn:E; [|done].
      apply is_model_type_exact in E as [E|E]; done.
Qed.

Lemma ltb_leb (x y : string) : String.ltb x y = negb (String.leb y x).
Proof.
  unfold String.ltb, String.leb. rewrite (String.compare_antisym x y).
  by destruct (String.compare y x).
Qed.

Lemma ltb_le (x y : string) : String.ltb x y = true → String.le x y.
Proof.
  rewrite ltb_leb. intros H%negb_true_iff.
  destruct (total String.le x y) as [?|Hyx]; [done|].
  unfold String.le in Hyx. rewrite H in Hyx. done.
Qed.

Lemma not_ltb_le (x y : string) : String.ltb x y = false → String.le y x.
Proof. rewrite ltb_leb. intros H%negb_false_iff. unfold String.le. by rewrite H. Qed.

Lemma ltb_ne (x y : string) : String.ltb x y = true → x ≠ y.
Proof.
  rewrite ltb_leb. intros H%negb_true_iff ->.
  pose proof (reflexivity (R:=String.le) y) as Hr. unfold String.le in Hr.
  by rewrite H in Hr.
Qed.

Lemma insert_desc_Sorted (x : string * json) l :
  Sorted desc l → Sorted desc (insert_desc x l).
Proof.
  induction 1 as [|y l Hs IH Hhd]; simpl.
  - by repeat constructor.
  - destruct (String.ltb x.1 y.1) eqn:Hlt.
    + constructor; [done|]. destruct Hhd as [|z l Hyz]; simpl.
      * constructor. by apply ltb_le.
      * destruct (String.ltb x.1 z.1); constructor; [done|]. by apply ltb_le.
    + constructor; [by constructor|]. constructor. by apply not_ltb_le.
Qed.

Lemma insert_desc_perm (x : string * json) l : insert_desc x l ≡ₚ x :: l.
Proof.
  induction l as [|y l IH]; simpl; [done|].
  destruct (String.ltb x.1 y.1); [|done]. rewrite IH. apply Permutation_swap.
Qed.

Lemma insert_desc_filter (k : string) (x : string * json) l :
  List.filter (λ p, String.eqb p.1 k) (insert_desc x l) =
  List.filter (λ p, String.eqb p.1 k) (x :: l).
Proof.
  induction l as [|y l IH]; [done|]. cbn [insert_desc].
  destruct (String.ltb x.1 y.1) eqn:Hlt; [|done].
  apply ltb_ne in Hlt. cbn [List.filter] in *. rewrite IH.
  destruct (String.eqb_spec x.1 k) as [Hx|Hx]; [|done].
  destruct (String.eqb_spec y.1 k) as [Hy|Hy]; [congruence|done].
Qed.

Lemma sort_desc_Sorted kl : Sorted desc (foldr insert_desc [] kl).
Proof. induction kl; simpl; [constructor | by apply insert_desc_Sorted]. Qed.

Lemma sort_desc_perm kl : foldr insert_desc [] kl ≡ₚ kl.
Proof. induction kl as [|x kl IH]; simpl; [done|]. by rewrite insert_desc_perm, IH. Qed.

Lemma sort_desc_filter (k : string) kl :
  List.filter (λ p, String.eqb p.1 k) (foldr insert_desc [] kl) =
  List.filter (λ p, String.eqb p.1 k) kl.
Proof.
  induction kl as [|x kl IH]; [done|]. cbn [foldr].
  rewrite insert_desc_filter. cbn [List.filter]. by rewrite IH.
Qed.

Lemma keyed_dicts (vs : list json) :
  forallb is_dict vs = true → keyed _published_ts vs = Ret (with_key <$> vs).
Proof.
  induction vs as [|v vs IH]; [done|]. cbn [forallb]. intros [Hv Hvs]%andb_prop.
  destruct v as [| | | | | |d]; try done. cbn [keyed]. rewrite IH by done.
  reflexivity.
Qed.

Lemma with_key_image (l : list (string * json)) (vs : list json) :
  l ≡ₚ with_key <$> vs → l = with_key <$> l.*2.
Proof.
  intros Hp. assert (Forall (λ p, p = with_key p.2) l) as Hall.
  { rewrite Hp. apply Forall_fmap. by apply Forall_true. }
  clear Hp. induction Hall as [|p l Hp' _ IH]; [done|].
  rewrite !fmap_cons. by f_equal.
Qed.

Lemma Sorted_with_key (l : list json) :
  Sorted desc (with_key <$> l) → Sorted (λ a b, String.le (key_of b) (key_of a)) l.
Proof.
  induction l as [|a l IH]; [constructor|]. intros H. inversion_clear H as [|?? Hs Hhd].
  constructor; [by apply IH|]. destruct l; [constructor|].
  inversion_clear Hhd. by constructor.
Qed.

Lemma filter_with_key (k : string) (l : list json) :
  (List.filter (λ p : string * json, String.eqb p.1 k) (with_key <$> l)).*2 =
  List.filter (λ x, String.eqb (key_of x) k) l.
Proof.
  induction l as [|a l IH]; [done|]. cbn. destruct (String.eqb (key_of a) k); cbn;
    by rewrite <- IH.
Qed.

Lemma sorted_reverse_stable (vs : list json) :
  stable_sort_desc key_of vs (sorted_reverse (with_key <$> vs)).
Proof.
  unfold sorted_reverse. set (S := foldr insert_desc [] (with_key <$> vs)).
  pose proof (sort_desc_perm (with_key <$> vs)) as Hp. fold S in Hp.
  pose proof (with_key_image S vs Hp) as HS.
  split_and!.
  - assert (vs = (with_key <$> vs).*2) as Hvs.
    { rewrite <- list_fmap_compose. by rewrite list_fmap_id. }
    rewrite Hvs at 1. by rewrite Hp.
  - apply Sorted_with_key. rewrite <- HS. apply sort_desc_Sorted.
  - intros k. rewrite <- !filter_with_key. rewrite <- HS. unfold S.
    by rewrite sort_desc_filter.
Qed.


Lemma stable_sort_max (key : json → string) (l a : _) (l' : list json) :
  stable_sort_desc key l (a :: l') → ∀ x, x ∈ l → String.le (key x) (key a).
Proof.
  intros (Hp & Hs & _) x Hx. rewrite Hp in Hx.
  apply Sorted_StronglySorted in Hs.
  2:{ intros u v w Huv Hvw. by etrans. }
  apply StronglySorted_inv in Hs as [_ Hall].
  apply elem_of_cons in Hx as [->|Hx]; [done|].
  rewrite Forall_forall in Hall. by apply Hall.
Qed.

Lemma stable_sort_head (key : json → string) (l l1 l2 : list json) :
  stable_sort_desc key l l1 → stable_sort_desc key l l2 → head l1 = head l2.
Proof.
  intros H1 H2. destruct l1 as [|a l1], l2 as [|b l2].
  - done.
  - destruct H1 as [H1 _], H2 as [H2 _]. rewrite H1 in H2.
    by apply Permutation_nil_cons in H2.
  - destruct H1 as [H1 _], H2 as [H2 _]. rewrite H2 in H1.
    by apply Permutation_nil_cons in H1.
  - assert (a ∈ l) as Ha by (destruct H1 as [-> _]; apply elem_of_cons; auto).
    assert (b ∈ l) as Hb by (destruct H2 as [-> _]; apply elem_of_cons; auto).
    pose proof (stable_sort_max key l a l1 H1 b Hb) as Hba.
    pose proof (stable_sort_max key l b l2 H2 a Ha) as Hab.
    assert (key a = key b) as Hk by (by apply (anti_symm String.le)).
    destruct H1 as (_ & _ & F1), H2 as (_ & _ & F2).
    specialize (F1 (key a)). specialize (F2 (key a)). rewrite <- F2 in F1.
    cbn [List.filter] in F1. rewrite <- Hk, String.eqb_refl in F1.
    simpl. congruence.
Qed.

Lemma find_version_first (t : Z) (pre post : list json) (v : json) :
  Forall (λ w, id_matches t w = false) pre → id_matches t v = true →
  find_version t (pre ++ v :: post) = Some v.
Proof.
  unfold id_matches. intros Hpre Hv. induction Hpre as [|w pre Hw _ IH]; simpl.
  - by destruct (id_is t v) as [[]|].
  - by destruct (id_is t w) as [[]|].
Qed.

Lemma find_version_none (t : Z) (vs : list json) :
  Forall (λ w, id_matches t w = false) vs → find_version t vs = None.
Proof.
  unfold id_matches. induction 1 as [|w vs Hw _ IH]; simpl; [done|].
  by destruct (id_is t w) as [[]|].
Qed.

Lemma choose_sorted (md : dict) (version_id : option Z) (v : json) (vs : list json) :
  dict_get md "modelVersions" = JList (v :: vs) →
  version_id ≫= (λ vid, find_version vid (v :: vs)) = None →
  forallb is_dict (v :: vs) = true →
  choose_model_version (JDict md) version_id =
    match sorted_reverse (with_key <$> v :: vs) with
    | w :: _ => Ret w
    | [] => Raise IndexError
    end.
Proof.
  intros Hmv Hfind Hd. unfold choose_model_version.
  rewrite get_dict, bind_Ret, Hmv. cbv beta iota.
  rewrite Hfind, keyed_dicts by done. reflexivity.
Qed.

Lemma keyed_not_dicts (vs : list json) :
  forallb is_dict vs = false → keyed _published_ts vs = Raise AttributeError.
Proof.
  induction vs as [|v vs IH]; [done|]. cbn [forallb keyed].
  destruct v as [| | | | | |d]; try done. cbn [is_dict andb]. intros Hvs.
  rewrite IH by done. reflexivity.
Qed.

Lemma id_matches_stored (t : Z) (v : json) :
  id_matches t v = true ↔ stored_id v = Some t.
Proof.
  unfold id_matches, id_is, stored_id. destruct v as [| | | | | |d]; try done.
  rewrite get_dict, bind_Ret.
  destruct (dict_get d "id") as [|b|n|x|s|l|d']; try done; cbn [py_int int_read].
  - rewrite bind_Ret, Z.eqb_eq. split; [by intros -> | by intros [= ->]].
  - rewrite bind_Ret, Z.eqb_eq. split; [by intros -> | by intros [= ->]].
  - destruct (float_trunc x) as [n|]; [|done].
    rewrite bind_Ret, Z.eqb_eq. split; [by intros -> | by intros [= ->]].
  - destruct (int_of_str s) as [n|]; [|done].
    rewrite bind_Ret, Z.eqb_eq. split; [by intros -> | by intros [= ->]].
Qed.

Lemma id_matches_not_stored (t : Z) (vs : list json) :
  Forall (λ w, stored_id w ≠ Some t) vs → Forall (λ w, id_matches t w = false) vs.
Proof.
  intros H. eapply Forall_impl; [exact H|]. intros w Hw.
  apply not_true_is_false. by rewrite id_matches_stored.
Qed.


Lemma model_key_test (key : json) :
  (if negb (is_list key) || negb (truthy key) then false
   else
     let first := item key 0 in
     is_list first && (2 <=? len first)
     && eq_str (item first 0) "model" && eq_str (item first 1) "getById") =
  model_key key.
Proof.
  destruct key as [| | | | |l|]; try done.
  destruct l as [|first l]; [done|]. cbn [is_list truthy negb orb item nth].
  cbv zeta. destruct first as [| | | | |fl|]; try done.
  destruct fl as [|a fl]; [by cbn|]. destruct fl as [|b fl].
  { cbn. by destruct a. }
  assert ((2 <=? len (JList (a :: b :: fl))) = true) as ->.
  { apply Z.leb_le. cbn [len length]. lia. }
  cbn [is_list andb item nth model_key].
  destruct a as [| | | |sa| |]; try done.
  destruct b as [| | | |sb| |]; cbn [eq_str]; by rewrite ?andb_false_r.
Qed.

Lemma scan_queries_step (model_id : option Z) (candidate q : json) (rest : list json) :
  descriptor_ok q = true →
  scan_queries model_id candidate (q :: rest) =
    match candidate_data q with
    | Some data =>
        if match model_id with None => true | Some m => data_id_is m data end
        then Ret data
        else scan_queries model_id data rest
    | None => scan_queries model_id candidate rest
    end.
Proof.
  intros Hok. destruct q as [| | | | | |d]; try done.
  cbn [scan_queries]. rewrite get_dict, bind_Ret.
  set (key := dict_get d "queryKey") in *.
  set (A := scan_queries model_id candidate rest).
  pose proof (model_key_test key) as Hk. cbn [descriptor_ok candidate_data] in *.
  fold key in Hok |- *.
  destruct (negb (is_list key) || negb (truthy key)) eqn:E1.
  { by rewrite <- Hk. }
  cbv zeta in Hk |- *. rewrite Hk. destruct (model_key key); [|done].
  cbn [get_default]. destruct (assoc "state" d) as [st|] eqn:Est; cbn [default].
  - destruct st as [| | | | | |sd]; try done. rewrite bind_Ret. cbv beta. unfold id.
    rewrite get_dict, bind_Ret. cbv beta.
    destruct (dict_get sd "data") as [| | | | | |dd]; try done.
  - done.
Qed.

Lemma scan_queries_spec (model_id : option Z) (qs : list json) (candidate : json) :
  forallb descriptor_ok qs = true →
  scan_queries model_id candidate qs =
    Ret (select model_id candidate (omap candidate_data qs)).
Proof.
  revert candidate. induction qs as [|q qs IH]; intros candidate Hok.
  - by destruct model_id.
  - cbn [forallb] in Hok. apply andb_prop in Hok as [Hq Hqs].
    rewrite scan_queries_step by done. cbn [omap list_omap].
    destruct (candidate_data q) as [data|]; [|by apply IH].
    destruct model_id as [m|]; [|done].
    cbn [select List.find]. destruct (data_id_is m data) eqn:Hm; [done|].
    rewrite IH by done. cbn [select]. f_equal.
    destruct (List.find (data_id_is m) (omap candidate_data qs)); [done|].
    rewrite last_cons. by destruct (last (omap candidate_data qs)).
Qed.

(** C1 (query-record resolver), as amended.  For an embedded state whose
    [queries] list holds descriptors of the shape the data model gives
    them and at least one candidate: with no target id the result is the
    first candidate of the scan; with a target id it is the first
    candidate whose [data.id] equals it, and the last candidate seen when
    none does. *)
Theorem find_model_from_trpc_selection (next_data : json) (model_id : option Z)
    (qs : list json) (c : json) (cs : list json) :
  queries_of next_data = Ret (JList qs) →
  forallb descriptor_ok qs = true →
  omap candidate_data qs = c :: cs →
  find_model_from_trpc next_data model_id =
    Ret (match model_id with
         | None => c
         | Some m =>
             match List.find (data_id_is m) (c :: cs) with
             | Some d => d
             | None => default c (last (c :: cs))
             end
         end).
Proof.
  intros Hq Hok Hc. unfold find_model_from_trpc. rewrite Hq.
  cbn [py_iter]. rewrite bind_Ret, scan_queries_spec, Hc by done.
  f_equal. unfold select. destruct model_id as [m|]; [|done].
  destruct (List.find (data_id_is m) (c :: cs)); [done|].
  rewrite last_cons. by destruct (last cs).
Qed.

Lemma replace_from_absent (old new s : string) :
  contains old s = false → replace_from O old new s = s.
Proof.
  induction s as [|c s IH]; [done|]. cbn [contains replace_from].
  intros [Hs Hc]%orb_false_elim. rewrite Hs. f_equal. by apply IH.
Qed.

(** C2 (embedded-state locator), as amended.  With no matching script
    element the result is [None].  Otherwise the trimmed content is
    parsed; if that fails it is parsed once more after every [&quot;] is
    replaced by a quotation mark, and the outcome of this second attempt is
    the outcome of the call: its value, or its [JSONDecodeError], which is
    raised to the caller.  In particular a content that does not parse and
    holds no [&quot;] always makes the call raise. *)
Theorem extract_next_data_cases (html : string) :
  (re_search next_data_pattern [DOTALL; IGNORECASE] html = None →
   extract_next_data html = Ret JNull) ∧
  (∀ g, re_search next_data_pattern [DOTALL; IGNORECASE] html = Some g →
     (∀ v, json_loads (strip g) = Some v → extract_next_data html = Ret v) ∧
     (∀ v, json_loads (strip g) = None →
           json_loads (replace "&quot;" dquote (strip g)) = Some v →
           extract_next_data html = Ret v) ∧
     (json_loads (strip g) = None →
      json_loads (replace "&quot;" dquote (strip g)) = None →
      extract_next_data html = Raise JSONDecodeError) ∧
     (json_loads (strip g) = None → contains "&quot;" (strip g) = false →
      extract_next_data html = Raise JSONDecodeError)).
Proof.
  unfold extract_next_data, loads. split.
  - by intros ->.
  - intros g ->. split_and!.
    + by intros v ->.
    + by intros v -> ->.
    + by intros -> ->.
    + intros Hfail Hno. unfold replace. rewrite replace_from_absent by done.
      by rewrite Hfail.
Qed.

Lemma structural_Ret {A} (a : A) : structural (Ret a).
Proof. by intros e. Qed.

Lemma structural_Raise {A} (e : exn) : is_transport e = false → structural (@Raise A e).
Proof. intros H e' [= <-]. done. Qed.

Lemma structural_bind {A B} (m : py A) (f : A → py B) :
  structural m → (∀ a, structural (f a)) → structural (m ≫= f).
Proof.
  intros Hm Hf e. destruct m as [a|e']; simpl.
  - apply Hf.
  - intros [= <-]. by apply Hm.
Qed.

Lemma structural_fmap {A B} (m : py A) (f : A → B) :
  structural m → structural (f <$> m).
Proof. intros Hm e. destruct m as [a|e']; simpl; [done|]. intros [= <-]. by apply Hm. Qed.

Lemma structural_get v k : structural (get v k).
Proof. destruct v; by intros ? [= <-]. Qed.

Lemma structural_get_default v k d : structural (get_default v k d).
Proof. destruct v; by intros ? [= <-]. Qed.

Lemma structural_getitem0 v : structural (getitem0 v).
Proof. destruct v as [| | | |[]|[]|]; by intros ? [= <-]. Qed.

Lemma structural_py_iter v : structural (py_iter v).
Proof. destruct v; by intros ? [= <-]. Qed.

Lemma structural_py_int v : structural (py_int v).
Proof.
  destruct v as [| | |x|s| |]; try (by intros ? [= <-]).
  - destruct x; by intros ? [= <-].
  - unfold py_int, int_of_str.
    destruct (match strip s with "" => _ | _ => _ end); [|by intros ? [= <-]].
    by destruct (_ <? _); intros ? [= <-].
Qed.

Lemma structural_loads s : structural (loads s).
Proof. unfold loads. destruct (json_loads s); by intros ? [= <-]. Qed.

Create HintDb structural.
#[local] Hint Resolve structural_Ret structural_get structural_get_default
  structural_getitem0 structural_py_iter structural_py_int structural_loads
  : structural.

Ltac structural_step :=
  match goal with
  | |- structural (Ret _) => apply structural_Ret
  | |- structural (Raise _) => by apply structural_Raise
  | |- structural (_ ≫= _) => apply structural_bind; [|intros ?]
  | |- structural (_ <$> _) => apply structural_fmap
  | |- structural (if ?b then _ else _) => destruct b
  | |- structural (match ?x with _ => _ end) => destruct x
  | |- _ => solve [auto with structural]
  end.

Lemma structural_extract_next_data html : structural (extract_next_data html).
Proof.
  unfold extract_next_data. destruct (re_search _ _ _); [|apply structural_Ret].
  unfold try_except_only. destruct (loads (strip s)) as [v|e] eqn:E; [apply structural_Ret|].
  assert (e = JSONDecodeError) as ->.
  { unfold loads in E. by destruct (json_loads _); inversion E. }
  cbn. apply structural_loads.
Qed.

Lemma structural_scan_queries model_id qs candidate :
  structural (scan_queries model_id candidate qs).
Proof.
  revert candidate. induction qs as [|q qs IH]; intros candidate; cbn [scan_queries];
    repeat structural_step.
Qed.

Lemma structural_find_model_from_trpc next_data model_id :
  structural (find_model_from_trpc next_data model_id).
Proof.
  unfold find_model_from_trpc. destruct (queries_of next_data); [|apply structural_Ret].
  apply structural_bind; [apply structural_py_iter|]. intros qs.
  apply structural_scan_queries.
Qed.

Lemma structural_keyed vs : structural (keyed _published_ts vs).
Proof.
  induction vs as [|v vs IH]; cbn [keyed]; [apply structural_Ret|].
  unfold _published_ts. repeat structural_step.
Qed.

Lemma structural_choose_model_version md vid :
  structural (choose_model_version md vid).
Proof.
  unfold choose_model_version. apply structural_bind; [apply structural_get|].
  intros versions. destruct versions as [| | | | |[|v vs]|]; try apply structural_Ret.
  destruct (vid ≫= _); [apply structural_Ret|].
  apply structural_bind; [apply structural_keyed|]. intros kl.
  destruct (sorted_reverse kl); [by apply structural_Raise | apply structural_Ret].
Qed.

Lemma structural_build_usage_tips v : structural (build_usage_tips v).
Proof. unfold build_usage_tips. repeat structural_step. Qed.

Lemma structural_scan_files files : structural (scan_files files).
Proof.
  induction files as [|f files IH]; cbn [scan_files]; [apply structural_Ret|].
  destruct f; try (by apply structural_Raise).
  destruct (is_model_type _); [apply structural_Ret | done].
Qed.

Lemma structural_extract_fields md vd : structural (extract_fields md vd).
Proof.
  unfold extract_fields.
  destruct (negb (truthy md)); [apply structural_Ret|].
  apply structural_bind; [apply structural_get|]. intros t.
  destruct (negb (truthy vd)); [apply structural_Ret|].
  repeat (apply structural_bind; [solve [auto using structural_build_usage_tips, structural_scan_files with structural]|intros ?]).
  match goal with |- structural (let '(_, _) := ?p in _) => destruct p end.
  apply structural_Ret.
Qed.

Lemma structural_fetch_preview_image_url_from_api model_id version_id :
  structural (fetch_preview_image_url_from_api model_id version_id).
Proof.
  unfold fetch_preview_image_url_from_api.
  destruct model_id as [m|]; [|apply structural_Ret].
  destruct (http_get (api_url m) ≫= _); [|apply structural_Ret].
  destruct (loads _) as [data|]; [|apply structural_Ret].
  apply structural_bind; [apply structural_get|]. intros mv.
  destruct (negb (truthy _)); [apply structural_Ret|].
  apply structural_bind.
  { destruct version_id; [|apply structural_Ret].
    apply structural_fmap, structural_py_iter. }
  intros found. apply structural_bind.
  { destruct found; auto with structural. }
  intros chosen. apply structural_bind; [apply structural_get|]. intros im.
  destruct (negb (truthy _)); [apply structural_Ret|].
  repeat (apply structural_bind; [solve [auto with structural]|intros ?]).
  destruct (negb (truthy _)); apply structural_Ret.
Qed.


Lemma structural_after_fetch (html : string) (model_id version_id : option Z) :
  structural
    (next_data ← extract_next_data html;
     if is_none next_data then
       let preview_url := extract_preview_image_url html in
       let empty := empty_fields in
       preview_url ←
         (if no_url preview_url
          then fetch_preview_image_url_from_api model_id version_id
          else Ret preview_url);
       Ret (empty, preview_url)
     else
       model_data ← find_model_from_trpc next_data model_id;
       version_data ←
         (if truthy model_data then choose_model_version model_data version_id
          else Ret JNull);
       details ← extract_fields model_data version_data;
       preview_url ← fetch_preview_image_url_from_api model_id version_id;
       let preview_url :=
         if no_url preview_url then extract_preview_image_url html else preview_url in
       Ret (details, preview_url)).
Proof.
  apply structural_bind; [apply structural_extract_next_data|]. intros next_data.
  destruct (is_none next_data).
  - cbv zeta. apply structural_bind; [|intros ?; apply structural_Ret].
    destruct (no_url _);
      [apply structural_fetch_preview_image_url_from_api | apply structural_Ret].
  - apply structural_bind; [apply structural_find_model_from_trpc|]. intros md.
    apply structural_bind.
    { destruct (truthy md);
        [apply structural_choose_model_version | apply structural_Ret]. }
    intros vd. apply structural_bind; [apply structural_extract_fields|]. intros d.
    apply structural_bind; [apply structural_fetch_preview_image_url_from_api|].
    intros p. apply structural_Ret.
Qed.

Lemma extract_details_dom (url : string) details preview :
  extract_details_from_url url = Ret (details, preview) →
  dom details = (list_to_set TARGET_FIELDS : gset string).
Proof.
  unfold extract_details_from_url. intros H.
  apply bind_Ret_inv in H as ([mid vid] & _ & H).
  apply bind_Ret_inv in H as (html & _ & H).
  apply bind_Ret_inv in H as (nd & _ & H).
  destruct (is_none nd).
  - cbv zeta in H. apply bind_Ret_inv in H as (p & _ & [= <- _]).
    apply dom_empty_fields.
  - apply bind_Ret_inv in H as (md & _ & H).
    apply bind_Ret_inv in H as (vd & _ & H).
    apply bind_Ret_inv in H as (d & Hd & H).
    apply bind_Ret_inv in H as (p & _ & [= <- _]).
    by apply extract_fields_dom in Hd.
Qed.


(** C5 (file name).  What the code does for the model file [fd]: with a
    truthy [url], [File Name] is the name the probe returns when it
    returns a non-empty one, and the stored [name], as text and trimmed,
    when the probe fails; with no [url] the field stays empty, and the
    stored [name] is not used. *)
Theorem file_name_resolution (md vd fd : dict) :
  md ≠ [] → settings_ok vd = true → first_model_file vd fd →
  ∃ r, extract_fields (JDict md) (JDict vd) = Ret r ∧
       (truthy (dict_get fd "url") = false → r !! "File Name" = Some "") ∧
       (truthy (dict_get fd "url") = true →
        (∀ n, fetch_real_filename (dict_get fd "url") = Some n →
              nonempty n = true → r !! "File Name" = Some n) ∧
        (fetch_real_filename (dict_get fd "url") = None ∨
         fetch_real_filename (dict_get fd "url") = Some "" →
         r !! "File Name" =
           Some (strip (py_str (py_or (dict_get fd "name") (JStr "")))))).
Proof.
  intros Hmd Hs Hf.
  destruct (extract_fields_model_file md vd fd Hmd Hs Hf) as (u & _ & H).
  eexists. split; [exact H|]. rewrite lookup_version_fields_file_name.
  unfold model_file_name. split.
  - by intros ->.
  - intros ->. split.
    + by intros n -> ->.
    + by intros [-> | ->].
Qed.

End Properties.

(** * Further properties *)

Section Coverage.

Context {rt : Runtime} {host : Host}.

Lemma find_none_forall {A} (f : A → bool) (l : list A) :
  List.find f l = None ↔ Forall (λ x, f x = false) l.
Proof.
  induction l as [|x l IH]; simpl.
  - split; [constructor | done].
  - destruct (f x) eqn:E.
    + split; [done|]. intros H. inversion H. congruence.
    + rewrite IH. split; [by constructor | by inversion 1].
Qed.

Lemma find_first {A} (f : A → bool) (pre post : list A) (x : A) :
  Forall (λ y, f y = false) pre → f x = true →
  List.find f (pre ++ x :: post) = Some x.
Proof.
  intros Hpre Hx. induction Hpre as [|y pre Hy _ IH]; simpl.
  - by rewrite Hx.
  - by rewrite Hy.
Qed.

Lemma contains_nonempty (sub s : string) :
  nonempty sub = true → contains sub s = true → nonempty s = true.
Proof. destruct s; [|done]. by destruct sub. Qed.

Lemma extract_preview_image_url_unfold (html : string) :
  extract_preview_image_url html =
    match soup_find_all_img html with
    | None => None
    | Some imgs =>
        match List.find edge_image imgs with
        | Some i => Some (src_of i)
        | None =>
            match List.find host_image imgs with
            | Some i => Some (src_of i)
            | None => None
            end
        end
    end.
Proof. reflexivity. Qed.

(** X1 (preview image from the markup).  An address that
    [extract_preview_image_url] returns is the [src] of one of the page's
    [<img>] tags, is not empty and has the image host "image.civitai.com"
    in it.  The function returns nothing exactly when the page cannot be
    parsed or no tag of it has that host in its [src]. *)
Theorem extract_preview_image_url_result (html : string) :
  (∀ u, extract_preview_image_url html = Some u →
        contains "image.civitai.com" u = true ∧ nonempty u = true ∧
        ∃ imgs i, soup_find_all_img html = Some imgs ∧ i ∈ imgs ∧ src_of i = u) ∧
  (extract_preview_image_url html = None ↔
     soup_find_all_img html = None ∨
     ∃ imgs, soup_find_all_img html = Some imgs ∧
             Forall (λ i, host_image i = false) imgs).
Proof.
  rewrite extract_preview_image_url_unfold.
  destruct (soup_find_all_img html) as [imgs|].
  2:{ split; [done|]. split; auto. }
  destruct (List.find edge_image imgs) as [i|] eqn:He.
  - apply find_some in He as [Hin He]. apply andb_prop in He as [Hh _].
    split.
    + intros u [= <-]. split_and!; [done | by apply (contains_nonempty "image.civitai.com") |].
      exists imgs, i. by rewrite list_elem_of_In.
    + split; [done|]. intros [?|(imgs' & [= <-] & Hall)]; [done|].
      rewrite Forall_forall in Hall. apply list_elem_of_In, Hall in Hin.
      unfold host_image in Hin. congruence.
  - destruct (List.find host_image imgs) as [i|] eqn:Hh.
    + apply find_some in Hh as [Hin Hh]. split.
      * intros u [= <-]. split_and!; [done | by apply (contains_nonempty "image.civitai.com") |].
        exists imgs, i. by rewrite list_elem_of_In.
      * split; [done|]. intros [?|(imgs' & [= <-] & Hall)]; [done|].
        rewrite Forall_forall in Hall. apply list_elem_of_In, Hall in Hin. congruence.
    + split; [done|]. split; [|done]. intros _. right. exists imgs.
      split; [done|]. by apply find_none_forall.
Qed.

(** X2 (main image first).  The first tag whose [src] has the image host and
    whose class has "EdgeImage_image__" is the one returned, also when tags
    that have the image host only come before it. *)
Theorem extract_preview_image_url_prefers_edge (html : string)
    (pre post : list img) (i : img) :
  soup_find_all_img html = Some (pre ++ i :: post)%list →
  Forall (λ j, edge_image j = false) pre → edge_image i = true →
  extract_preview_image_url html = Some (src_of i).
Proof.
  intros Hs Hpre Hi. rewrite extract_preview_image_url_unfold, Hs.
  by rewrite (find_first edge_image pre post i Hpre Hi).
Qed.


Lemma only_raises_Ret {A} (allowed : list exn) (a : A) : only_raises allowed (Ret a).
Proof. by intros e. Qed.

Lemma only_raises_Raise {A} (allowed : list exn) (e : exn) :
  e ∈ allowed → only_raises allowed (@Raise A e).
Proof. by intros H e' [= <-]. Qed.

Lemma only_raises_bind {A B} (allowed : list exn) (m : py A) (f : A → py B) :
  only_raises allowed m → (∀ a, only_raises allowed (f a)) →
  only_raises allowed (m ≫= f).
Proof.
  intros Hm Hf e. destruct m as [a|e']; simpl; [apply Hf|].
  intros [= <-]. by apply Hm.
Qed.

Lemma only_raises_fmap {A B} (allowed : list exn) (m : py A) (f : A → B) :
  only_raises allowed m → only_raises allowed (f <$> m).
Proof.
  intros Hm e. destruct m as [a|e']; simpl; [done|]. intros [= <-]. by apply Hm.
Qed.

Lemma only_raises_weaken {A} (l1 l2 : list exn) (m : py A) :
  l1 ⊆ l2 → only_raises l1 m → only_raises l2 m.
Proof. intros Hsub Hm e He. by apply Hsub, Hm. Qed.

Lemma only_raises_get allowed v k :
  AttributeError ∈ allowed → only_raises allowed (get v k).
Proof. intros H. destruct v; by intros ? [= <-]. Qed.

Lemma only_raises_get_default allowed v k d :
  AttributeError ∈ allowed → only_raises allowed (get_default v k d).
Proof. intros H. destruct v; by intros ? [= <-]. Qed.

Lemma only_raises_py_iter allowed v :
  TypeError ∈ allowed → only_raises allowed (py_iter v).
Proof. intros H. destruct v; by intros ? [= <-]. Qed.

Ltac solve_elem := repeat first [apply list_elem_of_here | apply list_elem_of_further].

Ltac only_raises_step :=
  match goal with
  | |- only_raises _ (Ret _) => apply only_raises_Ret
  | |- only_raises _ (Raise _) => apply only_raises_Raise; solve_elem
  | |- only_raises _ (get _ _) => apply only_raises_get; solve_elem
  | |- only_raises _ (get_default _ _ _) => apply only_raises_get_default; solve_elem
  | |- only_raises _ (py_iter _) => apply only_raises_py_iter; solve_elem
  | |- only_raises _ (_ ≫= _) => apply only_raises_bind; [|intros ?]
  | |- only_raises _ (_ <$> _) => apply only_raises_fmap
  | |- only_raises _ (if ?b then _ else _) => destruct b
  | |- only_raises _ (match ?x with _ => _ end) => destruct x
  | H : ∀ _, only_raises _ _ |- _ => solve [apply H]
  | H : only_raises _ _ |- _ => solve [apply H]
  end.

Lemma only_raises_scan_queries model_id qs candidate :
  only_raises [AttributeError] (scan_queries model_id candidate qs).
Proof.
  revert candidate. induction qs as [|q qs IH]; intros candidate; cbn [scan_queries];
    repeat only_raises_step.
Qed.

Lemma scan_queries_result model_id qs candidate v :
  scan_queries model_id candidate qs = Ret v → v = candidate ∨ is_dict v = true.
Proof.
  revert candidate. induction qs as [|q qs IH]; intros candidate; cbn [scan_queries].
  - intros [= <-]. by left.
  - intros H. apply bind_Ret_inv in H as (key & _ & H).
    destruct (negb (is_list key) || negb (truthy key)); [by apply IH|].
    cbv zeta in H.
    destruct (is_list (item key 0) && (2 <=? len (item key 0))
              && eq_str (item (item key 0) 0) "model"
              && eq_str (item (item key 0) 1) "getById"); [|by apply IH].
    apply bind_Ret_inv in H as (state & _ & H).
    apply bind_Ret_inv in H as (data & _ & H).
    destruct (is_dict data) eqn:Hd; cbn [negb] in H; [|by apply IH].
    apply bind_Ret_inv in H as (id & _ & H).
    destruct (match model_id with Some m => eq_int id m | None => true end).
    + injection H as <-. by right.
    + apply IH in H as [-> | H]; by right.
Qed.

(** X3 (what the resolver gives).  [find_model_from_trpc] returns [None] or
    an object; it raises nothing but [AttributeError], from a descriptor or
    a state that is not an object, and [TypeError], from queries that cannot
    be iterated; and a page whose state does not hold the path to
    the queries gives [None], whatever the failure of the look-up is. *)
Theorem find_model_from_trpc_result (next_data : json) (model_id : option Z) :
  (∀ v, find_model_from_trpc next_data model_id = Ret v →
        v = JNull ∨ is_dict v = true) ∧
  (∀ e, find_model_from_trpc next_data model_id = Raise e →
        e = AttributeError ∨ e = TypeError) ∧
  (∀ e, queries_of next_data = Raise e →
        find_model_from_trpc next_data model_id = Ret JNull).
Proof.
  unfold find_model_from_trpc. split_and!.
  - intros v. destruct (queries_of next_data) as [queries|]; [|intros [= <-]; by left].
    intros H. apply bind_Ret_inv in H as (qs & _ & H).
    by apply scan_queries_result in H.
  - intros e He.
    assert (only_raises [AttributeError; TypeError]
              (match queries_of next_data with
               | Ret queries => qs ← py_iter queries; scan_queries model_id JNull qs
               | Raise _ => Ret JNull
               end)) as Hor.
    { destruct (queries_of next_data); [|apply only_raises_Ret].
      apply only_raises_bind; [apply only_raises_py_iter; solve_elem|]. intros qs.
      eapply only_raises_weaken; [|apply only_raises_scan_queries].
      intros x ->%list_elem_of_singleton. solve_elem. }
    apply Hor in He. rewrite !elem_of_cons, elem_of_nil in He. tauto.
  - by intros e ->.
Qed.

Lemma find_version_some (t : Z) (vs : list json) (v : json) :
  find_version t vs = Some v → v ∈ vs ∧ is_dict v = true.
Proof.
  induction vs as [|w vs IH]; [done|]. cbn [find_version].
  destruct (id_is t w) as [[]|] eqn:E.
  - intros [= <-]. split; [by left|]. unfold id_is in E. by destruct w.
  - intros H. apply IH in H as [??]. split; [by right | done].
  - intros H. apply IH in H as [??]. split; [by right | done].
Qed.

Lemma keyed_published (vs : list json) kl :
  keyed _published_ts vs = Ret kl → kl.*2 = vs ∧ Forall (λ v, is_dict v = true) vs.
Proof.
  revert kl. induction vs as [|v vs IH]; intros kl; cbn [keyed].
  - by intros [= <-].
  - intros H. apply bind_Ret_inv in H as (k & Hk & H).
    apply bind_Ret_inv in H as (krest & Hrest & [= <-]).
    apply IH in Hrest as [<- Hall]. split; [done|]. constructor; [|done].
    unfold _published_ts in Hk. by destruct v.
Qed.

Lemma only_raises_keyed vs : only_raises [AttributeError] (keyed _published_ts vs).
Proof.
  induction vs as [|v vs IH]; cbn [keyed]; unfold _published_ts;
    repeat only_raises_step.
Qed.

(** X4 (what the selector gives).  [choose_model_version] returns [None] or
    one of the elements of the model's [modelVersions] list, which is then
    an object; the one exception it raises is [AttributeError]. *)
Theorem choose_model_version_result (model_data : json) (version_id : option Z) :
  (∀ v, choose_model_version model_data version_id = Ret v →
        v = JNull ∨
        (is_dict v = true ∧
         ∃ d vs, model_data = JDict d ∧ dict_get d "modelVersions" = JList vs ∧
                 v ∈ vs)) ∧
  (∀ e, choose_model_version model_data version_id = Raise e →
        e = AttributeError).
Proof.
  unfold choose_model_version.
  destruct model_data as [| | | | | |d]; try (split; [done | by intros e [= <-]]).
  rewrite get_dict, bind_Ret.
  destruct (dict_get d "modelVersions") as [| | | | |vs|] eqn:Hmv;
    try (split; [intros v [= <-]; by left | done]).
  destruct vs as [|v0 vs]; [split; [intros v [= <-]; by left | done]|].
  cbv beta iota.
  destruct (version_id ≫= λ vid, find_version vid (v0 :: vs)) as [v|] eqn:Hf.
  { split; [|done]. intros v' [= <-]. right.
    destruct version_id as [t|]; [|done]. apply find_version_some in Hf as [Hin Hd].
    split; [done|]. by exists d, (v0 :: vs). }
  destruct (keyed _published_ts (v0 :: vs)) as [kl|e] eqn:Hk.
  2:{ split; [done|]. intros e' [= <-]. apply only_raises_keyed in Hk.
      by apply list_elem_of_singleton in Hk. }
  rewrite bind_Ret. apply keyed_published in Hk as [Hsnd Hall].
  assert (sorted_reverse kl ≡ₚ v0 :: vs) as Hp.
  { unfold sorted_reverse. by rewrite sort_desc_perm, Hsnd. }
  destruct (sorted_reverse kl) as [|v rest].
  { by apply Permutation_nil_cons in Hp. }
  split; [|done]. intros v' [= <-]. right.
  assert (v ∈ v0 :: vs) as Hin by (rewrite <- Hp; by left).
  split.
  - rewrite Forall_forall in Hall. by apply Hall.
  - by exists d, (v0 :: vs).
Qed.


Lemma only_raises_build_usage_tips v :
  only_raises [AttributeError] (build_usage_tips v).
Proof. unfold build_usage_tips. repeat only_raises_step. Qed.

Lemma only_raises_scan_files files :
  only_raises [AttributeError] (scan_files files).
Proof.
  induction files as [|f files IH]; cbn [scan_files]; repeat only_raises_step.
Qed.

Lemma only_raises_extract_fields md vd :
  only_raises [AttributeError; TypeError] (extract_fields md vd).
Proof.
  unfold extract_fields.
  destruct (negb (truthy md)); [apply only_raises_Ret|].
  apply only_raises_bind; [only_raises_step|]. intros t.
  destruct (negb (truthy vd)); [apply only_raises_Ret|].
  repeat (apply only_raises_bind; [first
    [ only_raises_step
    | eapply only_raises_weaken; [|apply only_raises_build_usage_tips];
      intros x ->%list_elem_of_singleton; solve_elem
    | eapply only_raises_weaken; [|apply only_raises_scan_files];
      intros x ->%list_elem_of_singleton; solve_elem ] | intros ?]).
  match goal with |- only_raises _ (let '(_, _) := ?p in _) => destruct p end.
  apply only_raises_Ret.
Qed.

(** X5 (failures of the normalizer).  [extract_fields] raises nothing but
    [AttributeError] and [TypeError]; and on a model record and a version
    record that are not empty it raises exactly when the version record has
    not the shape of the data model ([version_ok]). *)
Theorem extract_fields_failures (model_data version_data : json) :
  (∀ e, extract_fields model_data version_data = Raise e →
        e = AttributeError ∨ e = TypeError) ∧
  (∀ md vd, model_data = JDict md → version_data = JDict vd →
            md ≠ [] → vd ≠ [] →
            (raises (extract_fields model_data version_data) = true ↔
             version_ok vd = false)).
Proof.
  split.
  - intros e He. apply only_raises_extract_fields in He.
    rewrite !elem_of_cons, elem_of_nil in He. tauto.
  - intros md vd -> -> Hmd Hvd. rewrite extract_fields_raises by done.
    apply negb_true_iff.
Qed.

Lemma join_nonempty (sep : string) (l : list string) :
  Forall (λ s, nonempty s = true) l → l ≠ [] → nonempty (join sep l) = true.
Proof.
  intros Hall Hne. destruct Hall as [|s l Hs Hl]; [done|].
  destruct s as [|c s]; [done|]. cbn. by destruct l.
Qed.

Lemma is_none_eq (v : json) : is_none v = true ↔ v = JNull.
Proof. by destruct v. Qed.

(** X6 (usage tips).  On a version whose settings are absent or an object,
    [build_usage_tips] returns a text.  The text is empty exactly when the
    version has neither a clip skip nor a strength; and without a strength
    the bounds [minStrength] and [maxStrength] are not shown: the text is
    the clip skip part alone, or empty. *)
Theorem build_usage_tips_parts (vd : dict) :
  settings_ok vd = true →
  ∃ tips sd,
    build_usage_tips (JDict vd) = Ret tips ∧
    py_or (dict_get vd "settings") (JDict []) = JDict sd ∧
    (nonempty tips = false ↔
       dict_get vd "clipSkip" = JNull ∧ dict_get sd "strength" = JNull) ∧
    (dict_get sd "strength" = JNull →
       tips = if is_none (dict_get vd "clipSkip") then ""
              else "CLIP SKIP: " +:+ py_str (dict_get vd "clipSkip")).
Proof.
  intros Hok. unfold build_usage_tips. rewrite !get_dict, !bind_Ret. cbv zeta.
  assert (∃ sd, py_or (dict_get vd "settings") (JDict []) = JDict sd) as [sd Hsd].
  { unfold settings_ok, py_or in *.
    destruct (truthy (dict_get vd "settings")); [|by eexists].
    destruct (dict_get vd "settings"); try done. by eexists. }
  rewrite Hsd, !get_dict, !bind_Ret. eexists. exists sd.
  split; [reflexivity|]. split; [done|].
  rewrite <- !is_none_eq.
  destruct (is_none (dict_get vd "clipSkip")), (is_none (dict_get sd "strength"));
    cbn [app negb orb].
  - split; [|done]. by split.
  - split; [|done].
    destruct (negb (is_none (dict_get sd "minStrength"))
              || negb (is_none (dict_get sd "maxStrength"))); cbn; split;
      try done; by intros [_ ?].
  - split; [|done]. cbn. split; [done | by intros [? _]].
  - split; [|done].
    destruct (negb (is_none (dict_get sd "minStrength"))
              || negb (is_none (dict_get sd "maxStrength"))); cbn; split;
      try done; by intros [? _].
Qed.


Lemma rstrip_idem (s : string) : rstrip (rstrip s) = rstrip s.
Proof.
  induction s as [|c s IH]; [done|]. cbn [rstrip].
  destruct (rstrip s) as [|c' r] eqn:E.
  - destruct (is_space c) eqn:Hc; [done|]. cbn. by rewrite Hc.
  - cbn [rstrip] in *. by rewrite IH.
Qed.

Lemma rstrip_cons_nonspace (c : ascii) (s : string) :
  is_space c = false → rstrip (String c s) = String c (rstrip s).
Proof. intros Hc. cbn [rstrip]. destruct (rstrip s); [by rewrite Hc | done]. Qed.

Lemma lstrip_head (s : string) :
  lstrip s = "" ∨ ∃ c r, lstrip s = String c r ∧ is_space c = false.
Proof.
  induction s as [|c s IH]; [by left|]. cbn [lstrip].
  destruct (is_space c) eqn:Hc; [done|]. right. by exists c, s.
Qed.

Lemma strip_idem (s : string) : strip (strip s) = strip s.
Proof.
  unfold strip. destruct (lstrip_head s) as [->|(c & r & -> & Hc)]; [done|].
  rewrite rstrip_cons_nonspace by done. cbn [lstrip]. rewrite Hc.
  rewrite <- (rstrip_cons_nonspace c r) by done. apply rstrip_idem.
Qed.

Lemma scan_files_result (files : list json) (h f : string) :
  scan_files files = Ret (h, f) →
  (h = "" ∧ f = "") ∨
  ∃ fd, JDict fd ∈ files ∧ is_model_type (dict_get fd "type") = true ∧
        h = model_file_hash fd ∧ f = model_file_name fd.
Proof.
  induction files as [|x files IH]; cbn [scan_files].
  - intros [= <- <-]. by left.
  - destruct x as [| | | | | |fd]; try done.
    destruct (is_model_type (dict_get fd "type")) eqn:Hty.
    + intros [= <- <-]. right. exists fd. split_and!; [by left | done..].
    + intros H. apply IH in H as [?|(fd' & Hin & ?)]; [by left|].
      right. exists fd'. split; [by right | done].
Qed.

Lemma scan_order_shape (order : list string) (hs : list json) (chosen : string * string) :
  nonempty chosen.2 = false →
  nonempty (scan_order order hs chosen).2 = true →
  ∃ t, t ∈ order ∧ (scan_order order hs chosen).1 = upper t ∧
       strip (scan_order order hs chosen).2 = (scan_order order hs chosen).2.
Proof.
  revert chosen. induction order as [|t order IH]; intros chosen Hc; cbn [scan_order].
  - by rewrite Hc.
  - cbv zeta. rewrite scan_hashes_first_hash.
    destruct (first_hash (upper t) hs) as [v|] eqn:Hv;
      cbn [fmap option_fmap option_map default from_option]; unfold id; cbn [snd fst].
    + destruct (nonempty v) eqn:Hn; cbn [snd fst].
      * intros _. exists t. split; [by left|]. split; [done|].
        unfold first_hash in Hv. destruct (List.find _ hs); [|done].
        injection Hv as <-. apply strip_idem.
      * intros H. destruct (IH (upper t, v) Hn H) as (t' & Hin & ? & ?).
        exists t'. split; [by right | done].
    + rewrite Hc. intros H. destruct (IH chosen Hc H) as (t' & Hin & ? & ?).
      exists t'. split; [by right | done].
Qed.

Lemma model_file_hash_shape (fd : dict) :
  model_file_hash fd = "" ∨
  ∃ t v, t ∈ hash_preference ∧ nonempty v = true ∧ strip v = v ∧
         model_file_hash fd = t +:+ " | " +:+ v.
Proof.
  unfold model_file_hash.
  destruct (py_or (dict_get fd "hashes") (JList [])) as [| | | | |l|d]; try by left.
  - pose proof (scan_order_shape preferred_order l ("", "") eq_refl) as Hs.
    destruct (scan_order preferred_order l ("", "")) as [ct ch]. cbn [fst snd] in Hs.
    destruct (nonempty ch) eqn:Hn; [|by left]. rewrite Hn.
    destruct (Hs eq_refl) as (t & Hin & -> & Htrim). right.
    exists (upper t), ch. split_and!; [|done..].
    unfold preferred_order in Hin. rewrite !elem_of_cons, elem_of_nil in Hin.
    unfold hash_preference. destruct_or!; subst; try done; cbn; solve_elem.
  - set (v := strip (py_str _)). destruct (nonempty v) eqn:Hn; [|by left].
    right. exists "AUTOV2", v. split_and!; [solve_elem | done | apply strip_idem | done].
Qed.

(** X7 (shape of the Hash field).  In a mapping that [extract_fields]
    returns the [Hash] field is empty, or it is a hash type of the
    preference list, " | ", and a hash that is not empty and has no white
    space around it. *)
Theorem hash_field_shape (model_data version_data : json) (r : gmap string string) :
  extract_fields model_data version_data = Ret r →
  ∃ h, r !! "Hash" = Some h ∧
       (h = "" ∨
        ∃ t v, t ∈ hash_preference ∧ nonempty v = true ∧ strip v = v ∧
               h = t +:+ " | " +:+ v).
Proof.
  intros H. destruct (truthy model_data) eqn:Hmd.
  2:{ rewrite extract_fields_no_model in H by done. injection H as <-.
      exists "". split; [done | by left]. }
  destruct model_data as [| | | | | |md];
    try (unfold extract_fields in H; rewrite Hmd in H; discriminate H).
  assert (md ≠ []) as Hne by (by intros ->).
  destruct (truthy version_data) eqn:Hvd.
  2:{ rewrite extract_fields_no_version in H by done. injection H as <-.
      exists "". split; [done | by left]. }
  destruct version_data as [| | | | | |vd];
    try (unfold extract_fields in H; rewrite Hmd, Hvd in H; discriminate H).
  assert (vd ≠ []) as Hne' by (by intros ->).
  rewrite extract_fields_version in H by done.
  destruct (build_usage_tips _) as [u|]; [|done].
  destruct (py_iter _) as [files|]; [|done].
  destruct (scan_files files) as [[h f]|] eqn:Hscan; [|done].
  injection H as <-. exists h. rewrite lookup_version_fields_hash. split; [done|].
  apply scan_files_result in Hscan as [[-> _]|(fd & _ & _ & -> & _)]; [by left|].
  apply model_file_hash_shape.
Qed.


Lemma lstrip_idem (s : string) : lstrip (lstrip s) = lstrip s.
Proof.
  destruct (lstrip_head s) as [->|(c & r & -> & Hc)]; [done|].
  cbn [lstrip]. by rewrite Hc.
Qed.

Lemma trimmed_strip (s : string) : trimmed (strip s).
Proof.
  unfold trimmed, strip. split; [|apply rstrip_idem].
  destruct (lstrip_head s) as [->|(c & r & -> & Hc)]; [done|].
  rewrite rstrip_cons_nonspace by done. cbn [lstrip]. by rewrite Hc.
Qed.

Lemma trimmed_empty : trimmed "".
Proof. done. Qed.

Lemma strip_trimmed (s : string) : trimmed s → strip s = s.
Proof. intros [Hl Hr]. unfold strip. by rewrite Hl, Hr. Qed.

Lemma rstrip_app (a b : string) :
  nonempty (rstrip b) = true → rstrip (a +:+ b) = a +:+ rstrip b.
Proof.
  intros Hb. induction a as [|c a IH]; [done|].
  change (rstrip (String c (a +:+ b)) = String c (a +:+ rstrip b)).
  cbn [rstrip]. rewrite IH.
  destruct (a +:+ rstrip b) eqn:E; [|done].
  destruct a; [|done]. change (rstrip b = "") in E. by rewrite E in Hb.
Qed.

Lemma lstrip_length (s : string) : (String.length (lstrip s) ≤ String.length s)%nat.
Proof.
  induction s as [|x s IH]; [done|]. cbn [lstrip].
  destruct (is_space x); cbn [String.length]; lia.
Qed.

Lemma lstrip_fixed_head (c : ascii) (s : string) :
  lstrip (String c s) = String c s → is_space c = false.
Proof.
  cbn [lstrip]. destruct (is_space c); [|done]. intros H.
  pose proof (lstrip_length s) as Hlen. rewrite H in Hlen.
  cbn [String.length] in Hlen. lia.
Qed.

Lemma trimmed_app (a b : string) :
  trimmed a → nonempty a = true → trimmed b → nonempty b = true →
  ∀ sep, trimmed (a +:+ sep +:+ b).
Proof.
  intros [Hla _] Ha [_ Hrb] Hb sep. split.
  - destruct a as [|c a]; [done|]. apply lstrip_fixed_head in Hla.
    change (lstrip (String c (a +:+ sep +:+ b)) = String c (a +:+ sep +:+ b)).
    cbn [lstrip]. by rewrite Hla.
  - assert (rstrip (sep +:+ b) = sep +:+ b) as Hsb.
    { rewrite rstrip_app; by rewrite Hrb. }
    rewrite rstrip_app; rewrite Hsb; [done|]. by destruct sep, b.
Qed.

Lemma trimmed_join (ws : list string) :
  Forall (λ w, trimmed w ∧ nonempty w = true) ws → trimmed (join ", " ws).
Proof.
  induction 1 as [|w ws [Hw Hn] Hall IH]; [done|].
  destruct ws as [|w' ws]; [done|].
  change (join ", " (w :: w' :: ws)) with (w +:+ ", " +:+ join ", " (w' :: ws)).
  apply trimmed_app; [done..|].
  apply join_nonempty; [|done].
  eapply Forall_impl; [exact Hall|]. by intros ? [??].
Qed.

Lemma trimmed_trigger_words (trained : json) : trimmed (trigger_words trained).
Proof.
  unfold trigger_words. destruct trained; try apply trimmed_strip.
  apply trimmed_join. induction l as [|w l IH]; [constructor|].
  rewrite fmap_cons. cbn [List.filter].
  destruct (nonempty (strip (py_str w))) eqn:Hn; [|done].
  constructor; [|done]. split; [apply trimmed_strip | done].
Qed.

(** X8 (trimmed fields).  In a mapping that [extract_fields] returns the
    fields [Type], [Published], [Base Model] and [Trigger Words] have no
    white space at either end. *)
Theorem fields_are_trimmed (model_data version_data : json) (r : gmap string string) :
  extract_fields model_data version_data = Ret r →
  ∀ k, k ∈ ["Type"; "Published"; "Base Model"; "Trigger Words"] →
       ∃ v, r !! k = Some v ∧ strip v = v.
Proof.
  intros H k Hk. rewrite !elem_of_cons, elem_of_nil in Hk.
  destruct (truthy model_data) eqn:Hmd.
  2:{ rewrite extract_fields_no_model in H by done. injection H as <-.
      exists "". destruct_or!; subst; done. }
  destruct model_data as [| | | | | |md];
    try (unfold extract_fields in H; rewrite Hmd in H; discriminate H).
  assert (md ≠ []) as Hne by (by intros ->).
  destruct (truthy version_data) eqn:Hvd.
  2:{ rewrite extract_fields_no_version in H by done. injection H as <-.
      destruct_or!; subst; try done; try (by exists "").
      eexists. rewrite lookup_insert_eq. split; [done|]. apply strip_idem. }
  destruct version_data as [| | | | | |vd];
    try (unfold extract_fields in H; rewrite Hmd, Hvd in H; discriminate H).
  assert (vd ≠ []) as Hne' by (by intros ->).
  rewrite extract_fields_version in H by done.
  destruct (build_usage_tips _) as [u|]; [|done].
  destruct (py_iter _) as [files|]; [|done].
  destruct (scan_files files) as [[h f]|]; [|done].
  injection H as <-. unfold version_fields.
  destruct_or!; subst; try done; eexists; (split; [by simplify_map_eq|]);
    first [apply strip_idem | apply strip_trimmed, trimmed_trigger_words].
Qed.

Lemma digit_not_space c : is_digit c = true → is_space c = false.
Proof.
  unfold is_digit, is_space. cbv zeta. generalize (code c). intros n.
  rewrite andb_true_iff, orb_false_iff, !andb_false_iff, !N.leb_le, !N.leb_gt. lia.
Qed.

Lemma rstrip_digits g : all_digits g = true → rstrip g = g.
Proof.
  induction g as [|c g IH]; [done|]. cbn [all_digits]. intros [Hc Hg]%andb_prop.
  cbn [rstrip]. rewrite IH by done. destruct g; [|done].
  by rewrite digit_not_space.
Qed.

Lemma int_digits_digits g :
  all_digits g = true →
  ∀ acc b, 0 ≤ acc → (g ≠ "" ∨ b = true) →
  ∃ n, int_digits acc b g = Some n ∧ 0 ≤ n.
Proof.
  induction g as [|c g IH]; intros H acc b Hacc Hb.
  - destruct Hb as [?|Hb]; [done|]. subst b. by exists acc.
  - cbn [all_digits] in H. apply andb_prop in H as [Hc Hg].
    cbn [int_digits]. rewrite Hc. apply IH; [done| |by right].
    unfold is_digit in Hc. cbv zeta in Hc.
    rewrite andb_true_iff, !N.leb_le in Hc. lia.
Qed.

Lemma strip_digits g : digits g = true → strip g = g.
Proof.
  unfold digits, strip. intros [Hne H]%andb_prop. destruct g as [|c g]; [done|].
  pose proof H as H'. cbn [all_digits] in H'. apply andb_prop in H' as [Hc _].
  cbn [lstrip]. by rewrite (digit_not_space c Hc), (rstrip_digits _ H).
Qed.

(** [int] of a text of digits: its number, which is not negative, when the
    text is within the limit, and [ValueError] when it is longer. *)
Lemma int_of_str_digits g :
  digits g = true →
  (digit_count g ≤ MAX_STR_DIGITS ∧ ∃ n, int_of_str g = Ret n ∧ 0 ≤ n) ∨
  (MAX_STR_DIGITS < digit_count g ∧ int_of_str g = Raise ValueError).
Proof.
  intros Hg. unfold int_of_str. rewrite (strip_digits g Hg).
  unfold digits in Hg. apply andb_prop in Hg as [Hne H].
  destruct g as [|c g]; [done|].
  pose proof H as H'. cbn [all_digits] in H'. apply andb_prop in H' as [Hc _].
  assert (Ascii.eqb c "-" = false) as ->.
  { apply Ascii.eqb_neq. by intros ->. }
  assert (Ascii.eqb c "+" = false) as ->.
  { apply Ascii.eqb_neq. by intros ->. }
  destruct (int_digits_digits (String c g) H 0 false) as (n & -> & Hn); [lia|by left|].
  destruct (MAX_STR_DIGITS <? digit_count (String c g)) eqn:Hlim.
  - right. by apply Z.ltb_lt in Hlim.
  - left. apply Z.ltb_ge in Hlim. eauto.
Qed.

(** X9 (identifiers).  Let the groups that the two searches capture be
    texts of decimal digits, as [\d+] gives on an ASCII address.  When none
    of them has more than 4300 digits, [extract_ids_from_url] does not
    raise: it returns a model id exactly when "/models/<digits>" is found
    and a version id exactly when "modelVersionId=<digits>" is found, and no
    id is negative.  When one of them has more than 4300 digits, the
    function raises [ValueError]: [int] refuses a literal of that
    length. *)
Theorem extract_ids_from_url_digits (url : string) :
  (∀ g, re_search "/models/(\d+)" [] url = Some g → digits g = true) →
  (∀ g, re_search "[?&]modelVersionId=(\d+)" [] url = Some g → digits g = true) →
  ((∀ g, re_search "/models/(\d+)" [] url = Some g ∨
         re_search "[?&]modelVersionId=(\d+)" [] url = Some g →
         digit_count g ≤ MAX_STR_DIGITS) →
   ∃ model_id version_id,
     extract_ids_from_url url = Ret (model_id, version_id) ∧
     (is_Some model_id ↔ is_Some (re_search "/models/(\d+)" [] url)) ∧
     (is_Some version_id ↔
      is_Some (re_search "[?&]modelVersionId=(\d+)" [] url)) ∧
     (∀ i, model_id = Some i → 0 ≤ i) ∧
     (∀ i, version_id = Some i → 0 ≤ i)) ∧
  (∀ g, re_search "/models/(\d+)" [] url = Some g ∨
        re_search "[?&]modelVersionId=(\d+)" [] url = Some g →
        MAX_STR_DIGITS < digit_count g →
        extract_ids_from_url url = Raise ValueError).
Proof.
  intros Hm Hv. unfold extract_ids_from_url.
  destruct (re_search "/models/(\d+)" [] url) as [g|];
    destruct (re_search "[?&]modelVersionId=(\d+)" [] url) as [g'|].
  - destruct (int_of_str_digits g) as [[Hs (n & -> & Hn)]|[Hl ->]]; [by apply Hm| |];
      (destruct (int_of_str_digits g') as [[Hs' (n' & -> & Hn')]|[Hl' ->]];
         [by apply Hv| |]); split.
    + intros _. exists (Some n), (Some n').
      split_and!; [done|done|done|by intros ? [= <-]..].
    + intros g0 [[= <-]|[= <-]] Hlong; lia.
    + intros Hlim. specialize (Hlim g' (or_intror eq_refl)). lia.
    + done.
    + intros Hlim. specialize (Hlim g (or_introl eq_refl)). lia.
    + done.
    + intros Hlim. specialize (Hlim g (or_introl eq_refl)). lia.
    + done.
  - destruct (int_of_str_digits g) as [[Hs (n & -> & Hn)]|[Hl ->]]; [by apply Hm| |];
      split.
    + intros _. exists (Some n), None.
      split_and!; [done|done|done|by intros ? [= <-]|done].
    + intros g0 [[= <-]|[=]] Hlong. lia.
    + intros Hlim. specialize (Hlim g (or_introl eq_refl)). lia.
    + done.
  - destruct (int_of_str_digits g') as [[Hs' (n' & -> & Hn')]|[Hl' ->]]; [by apply Hv| |];
      split.
    + intros _. exists None, (Some n').
      split_and!; [done|done|done|done|by intros ? [= <-]].
    + intros g0 [[=]|[= <-]] Hlong. lia.
    + intros Hlim. specialize (Hlim g' (or_intror eq_refl)). lia.
    + done.
  - split; [|by intros g0 [[=]|[=]]]. intros _. exists None, None. by split_and!.
Qed.

(** X10 (API failures are swallowed).  When the request to the model API,
    its status check or the parse of its body fails, with whatever
    exception, [fetch_preview_image_url_from_api] returns [None] and does
    not raise. *)
Theorem fetch_preview_image_url_from_api_swallows (m : Z) (version_id : option Z)
    (e : exn) :
  (resp ← http_get (api_url m); _ ← raise_for_status resp; loads (text resp)) = Raise e →
  fetch_preview_image_url_from_api (Some m) version_id = Ret None.
Proof.
  unfold fetch_preview_image_url_from_api.
  destruct (http_get (api_url m)) as [resp|]; [|done]. rewrite !bind_Ret.
  destruct (raise_for_status resp) as [[]|]; [|done]. rewrite !bind_Ret.
  by destruct (loads (text resp)).
Qed.

(** X11 (API answer that is not an object).  When the API answers with JSON
    that is not an object, [fetch_preview_image_url_from_api] raises
    [AttributeError]: the look-ups that follow the parse are outside the
    two handlers. *)
Theorem fetch_preview_image_url_from_api_not_object (m : Z) (version_id : option Z)
    (data : json) :
  (resp ← http_get (api_url m); _ ← raise_for_status resp; loads (text resp)) = Ret data →
  is_dict data = false →
  fetch_preview_image_url_from_api (Some m) version_id = Raise AttributeError.
Proof.
  unfold fetch_preview_image_url_from_api.
  destruct (http_get (api_url m)) as [resp|]; [|done]. rewrite !bind_Ret.
  destruct (raise_for_status resp) as [[]|]; [|done]. rewrite !bind_Ret.
  destruct (loads (text resp)) as [data'|]; [|done].
  intros [= ->] Hd. by destruct data.
Qed.

Lemma api_answer (m : Z) (resp : response) (data : json) :
  requests_get (api_url m) = Some resp →
  raise_for_status resp = Ret tt →
  json_loads (text resp) = Some data →
  ∀ version_id,
    fetch_preview_image_url_from_api (Some m) version_id =
      (mv ← get data "modelVersions";
       let versions := py_or mv (JList []) in
       if negb (truthy versions) then Ret None
       else
         found ←
           match version_id with
           | Some vid => find_version vid <$> py_iter versions
           | None => Ret None
           end;
         chosen ←
           match found with
           | Some v => Ret v
           | None => getitem0 versions
           end;
         im ← get chosen "images";
         let images := py_or im (JList []) in
         if negb (truthy images) then Ret None
         else
           first ← getitem0 images;
           u1 ← get first "url";
           u2 ← get first "urlSmall";
           u3 ← get first "urlThumbnail";
           let url := py_or (py_or u1 u2) u3 in
           if negb (truthy url) then Ret None
           else Ret (Some (strip (py_str url)))).
Proof.
  intros Hget Hst Hj version_id. unfold fetch_preview_image_url_from_api, http_get, loads.
  by rewrite Hget, bind_Ret, Hst, bind_Ret, Hj.
Qed.

(** X12 (unknown version id).  When no version of the API answer has the
    requested id, [fetch_preview_image_url_from_api] gives what it gives
    with no version requested: the preview of the first version listed. *)
Theorem fetch_preview_image_url_from_api_fallback (m : Z) (resp : response)
    (d : dict) (vs : list json) (vid : Z) :
  requests_get (api_url m) = Some resp →
  raise_for_status resp = Ret tt →
  json_loads (text resp) = Some (JDict d) →
  dict_get d "modelVersions" = JList vs →
  Forall (λ v, id_matches vid v = false) vs →
  fetch_preview_image_url_from_api (Some m) (Some vid) =
  fetch_preview_image_url_from_api (Some m) None.
Proof.
  intros Hget Hst Hj Hmv Hno.
  rewrite !(api_answer m resp (JDict d)) by done.
  rewrite !get_dict, !bind_Ret, Hmv. cbv zeta.
  destruct (negb (truthy (py_or (JList vs) (JList [])))) eqn:Ht; [done|].
  assert (py_or (JList vs) (JList []) = JList vs) as -> by (by destruct vs).
  cbn [py_iter fmap py_fmap]. by rewrite find_version_none.
Qed.

(** X13 (address of the API preview).  With the chosen version an object
    whose first image is an object, the preview is the first of [url],
    [urlSmall] and [urlThumbnail] of that image that is truthy, as text
    without the white space around it, and [None] when none of the three
    is. *)
Theorem fetch_preview_image_url_from_api_url (m : Z) (resp : response)
    (d cd first : dict) (v0 : json) (vs rest : list json) (version_id : option Z) :
  requests_get (api_url m) = Some resp →
  raise_for_status resp = Ret tt →
  json_loads (text resp) = Some (JDict d) →
  dict_get d "modelVersions" = JList (v0 :: vs) →
  default v0 (version_id ≫= λ vid, find_version vid (v0 :: vs)) = JDict cd →
  dict_get cd "images" = JList (JDict first :: rest) →
  fetch_preview_image_url_from_api (Some m) version_id =
    Ret (if truthy (dict_get first "url")
         then Some (strip (py_str (dict_get first "url")))
         else if truthy (dict_get first "urlSmall")
         then Some (strip (py_str (dict_get first "urlSmall")))
         else if truthy (dict_get first "urlThumbnail")
         then Some (strip (py_str (dict_get first "urlThumbnail")))
         else None).
Proof.
  intros Hget Hst Hj Hmv Hch Him.
  rewrite (api_answer m resp (JDict d)) by done.
  rewrite get_dict, bind_Ret, Hmv. cbv zeta. cbn [py_or truthy negb py_iter].
  assert ((match version_id with
           | Some vid => find_version vid <$> Ret (v0 :: vs)
           | None => Ret None
           end) = Ret (version_id ≫= λ vid, find_version vid (v0 :: vs))) as ->.
  { by destruct version_id. }
  rewrite bind_Ret.
  assert ((match version_id ≫= λ vid, find_version vid (v0 :: vs) with
           | Some v => Ret v
           | None => getitem0 (JList (v0 :: vs))
           end) = Ret (JDict cd)) as ->.
  { rewrite <- Hch. by destruct (version_id ≫= _). }
  rewrite bind_Ret, get_dict, bind_Ret, Him. cbn [py_or truthy negb getitem0].
  rewrite bind_Ret, !get_dict, !bind_Ret. unfold py_or.
  destruct (truthy (dict_get first "url")) eqn:H1.
  { by rewrite !H1. }
  destruct (truthy (dict_get first "urlSmall")) eqn:H2.
  { by rewrite !H2. }
  destruct (truthy (dict_get first "urlThumbnail")) eqn:H3; by rewrite ?H3.
Qed.

Lemma extract_preview_image_url_nonempty (html u : string) :
  extract_preview_image_url html = Some u → nonempty u = true.
Proof.
  rewrite extract_preview_image_url_unfold.
  destruct (soup_find_all_img html) as [imgs|]; [|done].
  destruct (List.find edge_image imgs) as [i|] eqn:He.
  - intros [= <-]. apply find_some in He as [_ He].
    apply andb_prop in He as [Hh _].
    by apply (contains_nonempty "image.civitai.com").
  - destruct (List.find host_image imgs) as [i|] eqn:Hh; [|done].
    intros [= <-]. apply find_some in Hh as [_ Hh].
    by apply (contains_nonempty "image.civitai.com").
Qed.

(** X14 (page without embedded state).  When the page has no embedded state
    the seven fields are empty and the preview comes from the markup; the
    API is asked only when the markup gives none, and its failure is then
    the pipeline's. *)
Theorem extract_details_without_state (url html : string)
    (model_id version_id : option Z) :
  extract_ids_from_url url = Ret (model_id, version_id) →
  fetch_html url = Ret html →
  extract_next_data html = Ret JNull →
  extract_details_from_url url =
    match extract_preview_image_url html with
    | Some u => Ret (empty_fields, Some u)
    | None =>
        preview_url ← fetch_preview_image_url_from_api model_id version_id;
        Ret (empty_fields, preview_url)
    end.
Proof.
  intros Hids Hhtml Hnd. unfold extract_details_from_url.
  rewrite Hids, bind_Ret, Hhtml, bind_Ret, Hnd, bind_Ret. cbn [is_none]. cbv zeta.
  destruct (extract_preview_image_url html) as [u|] eqn:Hu; [|done].
  apply extract_preview_image_url_nonempty in Hu. cbn [no_url]. by rewrite Hu.
Qed.

(** X15 (state without queries).  When the page has an embedded state in
    which the path to the queries is missing, the seven fields are
    empty, and the preview is the API's, or the markup's when the API gives
    none or an empty one. *)
Theorem extract_details_without_model (url html : string)
    (model_id version_id : option Z) (next_data : json) :
  extract_ids_from_url url = Ret (model_id, version_id) →
  fetch_html url = Ret html →
  extract_next_data html = Ret next_data →
  next_data ≠ JNull →
  raises (queries_of next_data) = true →
  extract_details_from_url url =
    (preview_url ← fetch_preview_image_url_from_api model_id version_id;
     Ret (empty_fields,
          if no_url preview_url then extract_preview_image_url html
          else preview_url)).
Proof.
  intros Hids Hhtml Hnd Hne Hq. unfold extract_details_from_url.
  rewrite Hids, bind_Ret, Hhtml, bind_Ret, Hnd, bind_Ret.
  assert (is_none next_data = false) as -> by (by destruct next_data).
  unfold find_model_from_trpc. destruct (queries_of next_data); [done|].
  rewrite bind_Ret. cbn [truthy]. rewrite bind_Ret.
  rewrite extract_fields_no_model by done. by rewrite bind_Ret.
Qed.

(** X16 (API preview first).  When the page has an embedded state and the
    API gives a preview that is not empty, the pipeline returns that
    preview, whatever images the markup has. *)
Theorem extract_details_api_preview_first (url html : string) (next_data : json)
    (details : gmap string string) (preview : option string)
    (model_id version_id : option Z) (p : string) :
  extract_ids_from_url url = Ret (model_id, version_id) →
  fetch_html url = Ret html →
  extract_next_data html = Ret next_data →
  next_data ≠ JNull →
  fetch_preview_image_url_from_api model_id version_id = Ret (Some p) →
  nonempty p = true →
  extract_details_from_url url = Ret (details, preview) →
  preview = Some p.
Proof.
  intros Hids Hhtml Hnd Hne Hapi Hp H. unfold extract_details_from_url in H.
  rewrite Hids, bind_Ret, Hhtml, bind_Ret, Hnd, bind_Ret in H.
  assert (is_none next_data = false) as Hn by (by destruct next_data).
  rewrite Hn in H.
  apply bind_Ret_inv in H as (md & _ & H).
  apply bind_Ret_inv in H as (vd & _ & H).
  apply bind_Ret_inv in H as (d & _ & H).
  rewrite Hapi, bind_Ret in H. cbn [no_url] in H. rewrite Hp in H.
  by injection H as _ <-.
Qed.

(** X17 (proxy settings).  When [load_proxies_from_config] returns proxies,
    the configuration is an object whose [enable_proxy] is truthy and whose
    port, read with [int], is positive; the two entries [http] and [https],
    the only ones, are the same address "http://host:port", where the host
    is not empty and has no white space around it. *)
Theorem load_proxies_from_config_result (config : config_file)
    (proxies : gmap string string) :
  load_proxies_from_config config = Ret (Some proxies) →
  ∃ (d : dict) (host : string) (port : Z),
    config = ConfigFile (JDict d) ∧
    truthy (dict_get d "enable_proxy") = true ∧
    py_int (default (JInt 0) (assoc "proxy_port" d)) = Ret port ∧
    0 < port ∧
    host ≠ "" ∧ trimmed host ∧
    proxies !! "http" = Some ("http://" +:+ host +:+ ":" +:+ pretty port) ∧
    proxies !! "https" = Some ("http://" +:+ host +:+ ":" +:+ pretty port) ∧
    dom proxies = ({["http"; "https"]} : gset string).
Proof.
  destruct config as [| |cfg]; [done..|].
  destruct cfg as [| | | | | |d]; try done.
  unfold load_proxies_from_config. rewrite get_dict. cbn [fmap py_fmap]. rewrite bind_Ret.
  destruct (truthy (dict_get d "enable_proxy")) eqn:He; [|done]. cbn [negb].
  cbn [get_default]. rewrite !bind_Ret. cbv zeta.
  destruct (py_int (default (JInt 0) (assoc "proxy_port" d))) as [port|] eqn:Hp; [|done].
  destruct (port <=? 0) eqn:Hpos; [done|]. apply Z.leb_gt in Hpos.
  intros [= <-].
  set (h := strip (py_str (default (JStr "127.0.0.1") (assoc "proxy_host" d)))).
  exists d, (if nonempty h then h else "127.0.0.1"), port.
  split_and!; try done.
  - destruct (nonempty h) eqn:Hh; [|done]. by destruct h.
  - destruct (nonempty h); [apply trimmed_strip|done].
Qed.

(** X18 (configuration that is not an object).  [load_proxies_from_config]
    raises exactly when [config.json] holds JSON that is not an object, and
    then [AttributeError]: a missing or unreadable file, a disabled proxy
    and a bad port all give [None]. *)
Theorem load_proxies_from_config_raises (config : config_file) (e : exn) :
  load_proxies_from_config config = Raise e ↔
  e = AttributeError ∧ ∃ cfg, config = ConfigFile cfg ∧ is_dict cfg = false.
Proof.
  split.
  - destruct config as [| |cfg]; [done..|].
    destruct cfg as [| | | | | |d]; try (intros [= <-]; eauto).
    unfold load_proxies_from_config. rewrite get_dict. cbn [fmap py_fmap]. rewrite bind_Ret.
    destruct (negb _); [done|]. cbn [get_default]. rewrite !bind_Ret. cbv zeta.
    destruct (py_int _); [|done]. by destruct (_ <=? 0).
  - intros (-> & cfg & -> & Hd). by destruct cfg.
Qed.
Lemma rfind_from_ge (c : ascii) (s : string) (i last : Z) :
  last ≤ i → last ≤ rfind_from i last c s.
Proof.
  revert i last. induction s as [|a s IH]; intros i last H; [cbn; lia|].
  cbn [rfind_from]. destruct (Ascii.eqb a c).
  - etrans; [exact H|]. apply IH. lia.
  - apply IH. lia.
Qed.

Lemma has_other_substring (c : ascii) (s : string) (n m : nat) :
  has_other c (substring n m s) = true → s ≠ "" ∧ (0 < m)%nat.
Proof.
  destruct s as [|a s]; [by destruct n, m|].
  destruct m as [|m]; [|intros _; split; [done|lia]].
  revert a s. induction n as [|n IH]; intros a s; [done|].
  cbn [substring]. destruct s as [|b s]; [by destruct n|]. intros H.
  destruct (IH b s H) as [_ ?]. lia.
Qed.

Lemma substring_head (a : ascii) (s : string) (m : nat) :
  substring 0 (S m) (String a s) = String a (substring 0 m s).
Proof. reflexivity. Qed.

Lemma contains_slash_cons (a : ascii) (s : string) :
  contains "/" (String a s) = Ascii.eqb "/" a || contains "/" s.
Proof. cbn [contains starts_with]. by rewrite andb_true_r. Qed.

Lemma contains_slash_substring (s : string) (m : nat) :
  contains "/" s = false → contains "/" (substring 0 m s) = false.
Proof.
  revert m. induction s as [|a s IH]; intros m; [by destruct m|].
  destruct m as [|m]; [done|].
  rewrite substring_head, !contains_slash_cons.
  intros [-> H]%orb_false_elim. by rewrite IH.
Qed.

(** The stem [splitext] gives is the path, or a non-empty start of it. *)
Lemma splitext_stem (p : string) :
  (splitext p).1 = p ∨
  ∃ a p' m, p = String a p' ∧ (splitext p).1 = String a (substring 0 m p').
Proof.
  unfold splitext. cbv zeta.
  destruct (_ && _) eqn:H; [right|by left].
  apply andb_prop in H as [Hlt Hother]. apply Z.ltb_lt in Hlt.
  unfold slice in Hother. apply has_other_substring in Hother as [Hp Hm].
  pose proof (rfind_from_ge "/" p 0 (-1)) as Hsep. fold (rfind "/" p) in Hsep.
  destruct p as [|a p']; [done|]. cbn [fst]. unfold slice.
  assert (∃ k, Z.to_nat (rfind "." (String a p') - 0) = S k) as [k ->].
  { exists (Z.to_nat (rfind "." (String a p') - 1)). lia. }
  exists a, p', k. by rewrite substring_head.
Qed.

Lemma splitext_nonempty (p : string) :
  nonempty p = true → nonempty (splitext p).1 = true.
Proof.
  intros Hp. destruct (splitext_stem p) as [->|(a & p' & m & _ & ->)]; done.
Qed.

Lemma splitext_no_slash (p : string) :
  contains "/" p = false → contains "/" (splitext p).1 = false.
Proof.
  intros Hp. destruct (splitext_stem p) as [->|(a & p' & m & -> & ->)]; [done|].
  rewrite contains_slash_cons in *. apply orb_false_elim in Hp as [-> Hp].
  by rewrite contains_slash_substring.
Qed.

Lemma splitext_absolute (p : string) :
  starts_with "/" p = true → starts_with "/" (splitext p).1 = true.
Proof.
  intros Hp. by destruct (splitext_stem p) as [->|(a & p' & m & -> & ->)].
Qed.

Lemma ends_with_char_app (c x : ascii) (a b : string) :
  ends_with_char c (a +:+ String x b) = ends_with_char c (String x b).
Proof.
  induction a as [|a0 a IH]; [done|].
  change (ends_with_char c (String a0 (a +:+ String x b)) = ends_with_char c (String x b)).
  rewrite <- IH. by destruct a.
Qed.

Lemma nonempty_app_r (a b : string) : nonempty b = true → nonempty (a +:+ b) = true.
Proof. by destruct a, b. Qed.

Lemma starts_with_slash_app (a b : string) :
  nonempty a = true → starts_with "/" (a +:+ b) = starts_with "/" a.
Proof. by destruct a. Qed.

Lemma contains_slash_head (s : string) :
  contains "/" s = false → starts_with "/" s = false.
Proof. destruct s as [|a s]; [done|]. cbn [contains]. by intros [-> _]%orb_false_elim. Qed.

(** The output directory is not empty and has no slash at its end, so
    that a relative name is put behind one slash. *)
Lemma output_dir_join (x : string) :
  starts_with "/" x = false → path_join output_dir x = output_dir +:+ "/" +:+ x.
Proof.
  intros Hx. unfold path_join at 1. rewrite Hx.
  assert (nonempty output_dir = true ∧ ends_with_char "/" output_dir = false) as [-> ->];
    [|done].
  unfold output_dir, path_join. cbn [starts_with]. cbn [Ascii.eqb Bool.eqb andb].
  destruct (negb (nonempty script_dir) || ends_with_char "/" script_dir).
  - split; [by apply nonempty_app_r|]. by rewrite (ends_with_char_app "/" "o").
  - split; [by apply nonempty_app_r|].
    change (script_dir +:+ "/" +:+ "output") with (script_dir +:+ String "/" "output").
    by rewrite (ends_with_char_app "/" "/").
Qed.

(** X19 (names of the output files).  For a resolved file name with no
    slash, the image goes to "<stem>.png" and the text to "<stem>.txt"
    directly in the output directory; the stems have no slash; for a file
    name that is not empty the two stems are the same and not empty, and for
    the empty one they are "preview" and "model". *)
Theorem output_files_in_output_dir (details : gmap string string) (name : string) :
  details !! "File Name" = Some name →
  contains "/" name = false →
  ∃ image_stem text_stem : string,
    preview_target name = output_dir +:+ "/" +:+ image_stem +:+ ".png" ∧
    details_target details = output_dir +:+ "/" +:+ text_stem +:+ ".txt" ∧
    contains "/" image_stem = false ∧
    contains "/" text_stem = false ∧
    (if nonempty name
     then image_stem = text_stem ∧ nonempty image_stem = true
     else image_stem = "preview" ∧ text_stem = "model").
Proof.
  intros Hd Hname. unfold preview_target, details_target. rewrite Hd.
  change (default "" (Some name)) with name.
  cbv zeta. destruct (nonempty name) eqn:Hn.
  - rewrite (splitext_nonempty name Hn).
    pose proof (splitext_no_slash name Hname) as Hs.
    pose proof (splitext_nonempty name Hn) as Hne.
    exists (splitext name).1, (splitext name).1.
    rewrite !output_dir_join; [done|..];
      by rewrite starts_with_slash_app, contains_slash_head.
  - destruct name; [|done]. exists "preview", "model".
    cbn [splitext]. by rewrite !output_dir_join.
Qed.

(** X20 (absolute file name).  A resolved file name that starts with a slash
    takes both output files out of the output directory: the targets are the
    stem of that name with ".png" and ".txt", absolute paths in which the
    output directory has no part. *)
Theorem absolute_file_name_leaves_output_dir (details : gmap string string)
    (name : string) :
  details !! "File Name" = Some name →
  starts_with "/" name = true →
  preview_target name = (splitext name).1 +:+ ".png" ∧
  details_target details = (splitext name).1 +:+ ".txt" ∧
  starts_with "/" (splitext name).1 = true.
Proof.
  intros Hd Hname. unfold preview_target, details_target. rewrite Hd.
  change (default "" (Some name)) with name.
  cbv zeta. pose proof (splitext_absolute name Hname) as Hs.
  assert (nonempty (splitext name).1 = true) as Hne by (by destruct (splitext name).1).
  rewrite Hne. unfold path_join. by rewrite !starts_with_slash_app, Hs.
Qed.

(** X21 (status of a run).  [process_url] answers "done~!" only when the
    address, without the white space around it, starts with "http", the
    page at it was fetched, the pipeline returned a mapping with exactly the
    seven target fields, and the output directory could be made. *)
Theorem process_url_done (url : option string) :
  process_url url = "done~!" →
  ∃ (u html : string) (details : gmap string string) (preview : option string),
    url = Some u ∧
    starts_with "http" (strip u) = true ∧
    fetch_html (strip u) = Ret html ∧
    extract_details_from_url (strip u) = Ret (details, preview) ∧
    dom details = (list_to_set TARGET_FIELDS : gset string) ∧
    makedirs output_dir = true.
Proof.
  unfold process_url. cbv zeta.
  destruct (starts_with "http" (strip (default "" url))) eqn:Hs; [|done]. cbn [negb].
  destruct (extract_details_from_url _) as [[details preview]|] eqn:He; [|done].
  destruct (makedirs output_dir) eqn:Hm; [|done]. intros _.
  destruct url as [u|]; [|done]. cbn [default] in *.
  pose proof He as Hf. unfold extract_details_from_url in Hf.
  apply bind_Ret_inv in Hf as ([m v] & _ & Hf).
  apply bind_Ret_inv in Hf as (html & Hhtml & _).
  exists u, html, details, preview. split_and!; try done.
  by apply extract_details_dom in He.
Qed.

End Coverage.

(** * Examples *)

(** C1, counterexample: with two candidates and no target id the resolver
    returns the first one, not the last one seen. *)
Lemma find_model_from_trpc_no_target_first :
  find_model_from_trpc (state_with [model_query 1; model_query 2]) None =
    Ret (model_record 1) ∧
  last (omap candidate_data [model_query 1; model_query 2]) = Some (model_record 2) ∧
  model_record 1 ≠ model_record 2.
Proof. split_and!; [reflexivity | reflexivity | discriminate]. Qed.

(** C1, witness: a target id that no candidate has gives the last
    candidate; one that the first candidate has gives that one. *)
Lemma find_model_from_trpc_selection_witness :
  find_model_from_trpc (state_with [model_query 1; model_query 2]) (Some 9) =
    Ret (model_record 2) ∧
  find_model_from_trpc (state_with [model_query 1; model_query 2]) (Some 1) =
    Ret (model_record 1).
Proof.
  split.
  - exact (find_model_from_trpc_selection
             (state_with [model_query 1; model_query 2]) (Some 9)
             [model_query 1; model_query 2] (model_record 1) [model_record 2]
             eq_refl eq_refl eq_refl).
  - exact (find_model_from_trpc_selection
             (state_with [model_query 1; model_query 2]) (Some 1)
             [model_query 1; model_query 2] (model_record 1) [model_record 2]
             eq_refl eq_refl eq_refl).
Defined.

(** C2, counterexample: when both parse attempts fail the locator raises
    [JSONDecodeError]; it does not return [None]. *)
Lemma extract_next_data_second_failure_raises :
  extract_next_data (rt := offline) broken_page = Raise JSONDecodeError.
Proof. reflexivity. Qed.



(** C4, counterexample: a file of type "MODEL" is not taken as the model
    file, so its hash is not reported; the same file of type "Model" is. *)
Lemma upper_case_type_is_not_a_model_file :
  (∃ r, extract_fields (rt := offline) (JDict sample_model)
          (JDict (version_with_files
             [file_record "MODEL" [("hashes", JDict [("AutoV2", JStr "abc")])]])) = Ret r ∧
        r !! "Hash" = Some "") ∧
  (∃ r, extract_fields (rt := offline) (JDict sample_model)
          (JDict (version_with_files
             [file_record "Model" [("hashes", JDict [("AutoV2", JStr "abc")])]])) = Ret r ∧
        r !! "Hash" = Some "AUTOV2 | abc").
Proof. split; (eexists; split; [reflexivity | by vm_compute]). Qed.

(** C4, witness: the file of type "model" is used; the "MODEL" file before
    it is passed over, and what follows it, a number and another model
    file, is not looked at. *)
Lemma first_exact_model_file_witness :
  ∃ r, extract_fields (rt := offline) (JDict sample_model)
         (JDict (version_with_files
            [file_record "MODEL" [("hashes", JDict [("AutoV2", JStr "no")])];
             file_record "model" [("hashes", JDict [("AutoV2", JStr "abc")]);
                                  ("name", JStr "a.safetensors")];
             JInt 5;
             file_record "Model" [("hashes", JDict [("AutoV2", JStr "later")])]])) = Ret r ∧
       r !! "Hash" = Some "AUTOV2 | abc" ∧
       r !! "File Name" = Some "".
Proof.
  refine (proj1 (first_exact_model_file (rt := offline) sample_model
            (version_with_files _)
            [("type", JStr "model"); ("hashes", JDict [("AutoV2", JStr "abc")]);
             ("name", JStr "a.safetensors")]
            [file_record "MODEL" [("hashes", JDict [("AutoV2", JStr "no")])]]
            [JInt 5; file_record "Model" [("hashes", JDict [("AutoV2", JStr "later")])]]
            _ eq_refl eq_refl eq_refl (or_intror eq_refl))).
  discriminate.
Defined.

(** C7, counterexample: a hash of white space ends the scan of its type, so
    the hash after it is not found and the field is empty, where the
    preference order as stated gives a rendering. *)
Lemma blank_hash_hides_later_hash :
  (∃ r, extract_fields (rt := offline) (JDict sample_model)
          (JDict (version_with_files
             [file_record "Model"
                [("hashes", JList [hash_record "AUTOV2" " "; hash_record "AUTOV2" "y"])]])) = Ret r ∧
        r !! "Hash" = Some "") ∧
  preferred_hash (rt := offline) hash_preference
    [hash_record "AUTOV2" " "; hash_record "AUTOV2" "y"] = "AUTOV2 | ".
Proof. split; [eexists; split; [reflexivity | by vm_compute] | reflexivity]. Qed.

(** C7, witness: the specification's example; the preference order wins
    over the list order. *)
Lemma list_hashes_preference_witness :
  ∃ r, extract_fields (rt := offline) (JDict sample_model)
         (JDict (version_with_files
            [file_record "Model"
               [("hashes", JList [hash_record "SHA256" "x"; hash_record "AutoV2" "y"])]])) = Ret r ∧
       r !! "Hash" = Some "AUTOV2 | y".
Proof.
  refine (list_hashes_preference (rt := offline) sample_model (version_with_files _)
            [("type", JStr "Model");
             ("hashes", JList [hash_record "SHA256" "x"; hash_record "AutoV2" "y"])]
            _ _ eq_refl _ eq_refl _).
  - discriminate.
  - by exists [], [].
  - repeat constructor.
Defined.

(** C9, counterexample: [trainedWords] being the number 0, which is not a
    list, gives the empty text and not its rendering. *)
Lemma falsy_trained_words_give_empty_text :
  (∃ r, extract_fields (rt := offline) (JDict sample_model)
          (JDict [("trainedWords", JInt 0)]) = Ret r ∧
        r !! "Trigger Words" = Some "") ∧
  py_str (rt := offline) (JInt 0) = "0".
Proof. split; [eexists; split; [reflexivity | by vm_compute] | reflexivity]. Qed.

(** C9, witness: the specification's example. *)
Lemma trigger_words_normalized_witness :
  ∃ r, extract_fields (rt := offline) (JDict sample_model)
         (JDict [("trainedWords", JList [JStr ""; JStr " a "; JStr "b"])]) = Ret r ∧
       r !! "Trigger Words" = Some "a, b".
Proof.
  refine (trigger_words_normalized (rt := offline) sample_model
            [("trainedWords", JList [JStr ""; JStr " a "; JStr "b"])] _ _ eq_refl);
    discriminate.
Defined.

(** C10, witness: a mapping with a SHA256 entry only gives no hash. *)
Lemma mapping_hashes_autov2_only_witness :
  ∃ r, extract_fields (rt := offline) (JDict sample_model)
         (JDict (version_with_files
            [file_record "Model" [("hashes", JDict [("SHA256", JStr "x")])]])) = Ret r ∧
       r !! "Hash" = Some "".
Proof.
  destruct (mapping_hashes_autov2_only (rt := offline) sample_model
              (version_with_files
                 [file_record "Model" [("hashes", JDict [("SHA256", JStr "x")])]])
              [("type", JStr "Model"); ("hashes", JDict [("SHA256", JStr "x")])]
              [("SHA256", JStr "x")]) as (r & Hr & _ & Hnone).
  - discriminate.
  - reflexivity.
  - by exists [], [].
  - reflexivity.
  - exists r. split; [exact Hr | by apply Hnone].
Defined.

(** C5, witness: the failing input, a model file with a stored name and no
    URL; the field is empty. *)
Lemma file_name_resolution_witness :
  ∃ r, extract_fields (rt := offline) (JDict sample_model)
         (JDict (version_with_files
            [file_record "Model" [("name", JStr "a.safetensors")]])) = Ret r ∧
       r !! "File Name" = Some "".
Proof.
  destruct (file_name_resolution (rt := offline) sample_model
              (version_with_files
                 [file_record "Model" [("name", JStr "a.safetensors")]])
              [("type", JStr "Model"); ("name", JStr "a.safetensors")])
    as (r & Hr & Hno & _).
  - discriminate.
  - reflexivity.
  - by exists [], [].
  - exists r. split; [exact Hr | by apply Hno].
Defined.



(** ** Examples of the further properties *)

(** X2, witness: the main image of [gallery_page] is returned, not the
    thumbnail before it. *)
Lemma extract_preview_image_url_prefers_edge_witness :
  extract_preview_image_url (rt := online) gallery_page =
    Some "https://image.civitai.com/m.png".
Proof.
  refine (extract_preview_image_url_prefers_edge (rt := online) gallery_page
            [thumbnail] [] main_image eq_refl _ eq_refl).
  repeat constructor.
Defined.

(** X6, witness: a version with a clip skip and no settings. *)
Lemma build_usage_tips_parts_witness :
  ∃ tips sd,
    build_usage_tips (rt := offline) (JDict [("clipSkip", JInt 2)]) = Ret tips ∧
    py_or (dict_get [("clipSkip", JInt 2)] "settings") (JDict []) = JDict sd ∧
    (nonempty tips = false ↔
       dict_get [("clipSkip", JInt 2)] "clipSkip" = JNull ∧
       dict_get sd "strength" = JNull) ∧
    (dict_get sd "strength" = JNull →
       tips = if is_none (dict_get [("clipSkip", JInt 2)] "clipSkip") then ""
              else "CLIP SKIP: " +:+ py_str (rt := offline)
                                      (dict_get [("clipSkip", JInt 2)] "clipSkip")).
Proof.
  exact (build_usage_tips_parts (rt := offline) [("clipSkip", JInt 2)] eq_refl).
Defined.

(** X7, witness: a model file with an AutoV2 hash in a mapping. *)
Lemma hash_field_shape_witness :
  ∃ r, extract_fields (rt := offline) (JDict sample_model)
         (JDict (version_with_files
            [file_record "Model" [("hashes", JDict [("AutoV2", JStr "abc")])]])) = Ret r ∧
       ∃ h, r !! "Hash" = Some h ∧
            (h = "" ∨
             ∃ t v, t ∈ hash_preference ∧ nonempty v = true ∧ strip v = v ∧
                    h = t +:+ " | " +:+ v).
Proof.
  eexists. split; [reflexivity|].
  apply (hash_field_shape (rt := offline) (JDict sample_model)
           (JDict (version_with_files
              [file_record "Model" [("hashes", JDict [("AutoV2", JStr "abc")])]]))).
  reflexivity.
Defined.

(** X8, witness: trigger words with white space around them. *)
Lemma fields_are_trimmed_witness :
  ∃ r, extract_fields (rt := offline) (JDict sample_model)
         (JDict [("trainedWords", JList [JStr " a "; JStr "b "])]) = Ret r ∧
       ∀ k, k ∈ ["Type"; "Published"; "Base Model"; "Trigger Words"] →
            ∃ v, r !! k = Some v ∧ strip v = v.
Proof.
  eexists. split; [reflexivity|].
  apply (fields_are_trimmed (rt := offline) (JDict sample_model)
           (JDict [("trainedWords", JList [JStr " a "; JStr "b "])])).
  reflexivity.
Defined.

(** X9, witness: [sample_url], which has the model id 7 and no version
    id; and [long_url], whose model id has 4301 digits. *)
Lemma extract_ids_from_url_digits_witness :
  (∃ model_id version_id,
     extract_ids_from_url (rt := offline) sample_url = Ret (model_id, version_id) ∧
     (is_Some model_id ↔
      is_Some (re_search (Runtime := offline) "/models/(\d+)" [] sample_url)) ∧
     (is_Some version_id ↔
      is_Some (re_search (Runtime := offline) "[?&]modelVersionId=(\d+)" []
                 sample_url)) ∧
     (∀ i, model_id = Some i → 0 ≤ i) ∧
     (∀ i, version_id = Some i → 0 ≤ i)) ∧
  extract_ids_from_url (rt := long_ids) long_url = Raise ValueError.
Proof.
  split.
  - apply (extract_ids_from_url_digits (rt := offline) sample_url).
    + intros g H. vm_compute in H. injection H as <-. reflexivity.
    + intros g H. vm_compute in H. discriminate H.
    + intros g [H|H]; vm_compute in H; [|discriminate H].
      injection H as <-. vm_compute. discriminate.
  - refine (proj2 (extract_ids_from_url_digits (rt := long_ids) long_url _ _)
              long_id (or_introl _) _).
    + intros g H. vm_compute in H. injection H as <-. vm_compute. reflexivity.
    + intros g H. vm_compute in H. discriminate H.
    + vm_compute. reflexivity.
    + vm_compute. reflexivity.
Defined.

(** X10, witness: with the network down the API preview is [None]. *)
Lemma fetch_preview_image_url_from_api_swallows_witness :
  fetch_preview_image_url_from_api (rt := offline) (Some 7) None = Ret None.
Proof.
  exact (fetch_preview_image_url_from_api_swallows (rt := offline) 7 None
           ConnectionError eq_refl).
Defined.

(** X11, witness: the API answers with an empty list for model 8. *)
Lemma fetch_preview_image_url_from_api_not_object_witness :
  fetch_preview_image_url_from_api (rt := online) (Some 8) None =
    Raise AttributeError.
Proof.
  exact (fetch_preview_image_url_from_api_not_object (rt := online) 8 None
           (JList []) eq_refl eq_refl).
Defined.

(** X12, witness: model 7 has no version 99. *)
Lemma fetch_preview_image_url_from_api_fallback_witness :
  fetch_preview_image_url_from_api (rt := online) (Some 7) (Some 99) =
  fetch_preview_image_url_from_api (rt := online) (Some 7) None.
Proof.
  refine (fetch_preview_image_url_from_api_fallback (rt := online) 7 (ok api_text)
            api_record [JDict api_version] 99 eq_refl eq_refl eq_refl eq_refl _).
  repeat constructor.
Defined.

(** X13, witness: the image of model 7 has a [url]. *)
Lemma fetch_preview_image_url_from_api_url_witness :
  fetch_preview_image_url_from_api (rt := online) (Some 7) None =
    Ret (Some "https://image.civitai.com/a.png").
Proof.
  exact (fetch_preview_image_url_from_api_url (rt := online) 7 (ok api_text)
           api_record api_version api_image (JDict api_version) [] [] None
           eq_refl eq_refl eq_refl eq_refl eq_refl eq_refl).
Defined.

(** X14, witness: [gallery_page] has no embedded state; its main image is
    the preview and the fields are empty. *)
Lemma extract_details_without_state_witness :
  extract_details_from_url (rt := online) gallery_url =
    Ret (empty_fields, Some "https://image.civitai.com/m.png").
Proof.
  exact (extract_details_without_state (rt := online) gallery_url gallery_page
           None None eq_refl eq_refl eq_refl).
Defined.

(** X15, witness: the state of [state_page] is the empty object. *)
Lemma extract_details_without_model_witness :
  extract_details_from_url (rt := online) sample_url =
    Ret (empty_fields, Some "https://image.civitai.com/a.png").
Proof.
  refine (extract_details_without_model (rt := online) sample_url state_page
            (Some 7) None (JDict []) eq_refl eq_refl eq_refl _ eq_refl).
  discriminate.
Defined.

(** X16, witness: the preview of [sample_url] is the API's. *)
Lemma extract_details_api_preview_first_witness :
  ∃ details preview,
    extract_details_from_url (rt := online) sample_url = Ret (details, preview) ∧
    preview = Some "https://image.civitai.com/a.png".
Proof.
  eexists _, _. split; [reflexivity|].
  refine (extract_details_api_preview_first (rt := online) sample_url state_page
            (JDict []) _ _ (Some 7) None "https://image.civitai.com/a.png"
            eq_refl eq_refl eq_refl _ eq_refl eq_refl eq_refl).
  discriminate.
Defined.

(** X17, witness: a configuration with a port and no host uses
    127.0.0.1. *)
Lemma load_proxies_from_config_result_witness :
  ∃ (d : dict) (host : string) (port : Z),
    proxy_config = ConfigFile (JDict d) ∧
    truthy (dict_get d "enable_proxy") = true ∧
    py_int (default (JInt 0) (assoc "proxy_port" d)) = Ret port ∧
    0 < port ∧
    host ≠ "" ∧ trimmed host ∧
    (<["https" := "http://127.0.0.1:49254"]>
       (<["http" := "http://127.0.0.1:49254"]> (∅ : gmap string string))) !! "http" =
      Some ("http://" +:+ host +:+ ":" +:+ pretty port) ∧
    (<["https" := "http://127.0.0.1:49254"]>
       (<["http" := "http://127.0.0.1:49254"]> (∅ : gmap string string))) !! "https" =
      Some ("http://" +:+ host +:+ ":" +:+ pretty port) ∧
    dom (<["https" := "http://127.0.0.1:49254"]>
           (<["http" := "http://127.0.0.1:49254"]> (∅ : gmap string string))) =
      ({["http"; "https"]} : gset string).
Proof.
  exact (load_proxies_from_config_result (rt := offline) proxy_config
           (<["https" := "http://127.0.0.1:49254"]>
              (<["http" := "http://127.0.0.1:49254"]> ∅)) eq_refl).
Defined.

(** X19, witness: the two files of "a.safetensors". *)
Lemma output_files_in_output_dir_witness :
  ∃ image_stem text_stem : string,
    preview_target (host := desk) "a.safetensors" =
      output_dir (host := desk) +:+ "/" +:+ image_stem +:+ ".png" ∧
    details_target (host := desk) (<["File Name" := "a.safetensors"]> empty_fields) =
      output_dir (host := desk) +:+ "/" +:+ text_stem +:+ ".txt" ∧
    contains "/" image_stem = false ∧
    contains "/" text_stem = false ∧
    image_stem = text_stem ∧ nonempty image_stem = true.
Proof.
  exact (output_files_in_output_dir (host := desk)
           (<["File Name" := "a.safetensors"]> empty_fields) "a.safetensors"
           eq_refl eq_refl).
Defined.

(** X20, witness: the file name "/tmp/a.safetensors". *)
Lemma absolute_file_name_leaves_output_dir_witness :
  preview_target (host := desk) "/tmp/a.safetensors" = "/tmp/a.png" ∧
  details_target (host := desk) (<["File Name" := "/tmp/a.safetensors"]> empty_fields) =
    "/tmp/a.txt" ∧
  starts_with "/" "/tmp/a" = true.
Proof.
  exact (absolute_file_name_leaves_output_dir (host := desk)
           (<["File Name" := "/tmp/a.safetensors"]> empty_fields) "/tmp/a.safetensors"
           eq_refl eq_refl).
Defined.

(** X21, witness: a run on [sample_url], given with white space around
    it. *)
Lemma process_url_done_witness :
  ∃ (u html : string) (details : gmap string string) (preview : option string),
    Some (" " +:+ sample_url +:+ " ") = Some u ∧
    starts_with "http" (strip u) = true ∧
    fetch_html (rt := online) (strip u) = Ret html ∧
    extract_details_from_url (rt := online) (strip u) = Ret (details, preview) ∧
    dom details = (list_to_set TARGET_FIELDS : gset string) ∧
    makedirs (Host := desk) (output_dir (host := desk)) = true.
Proof.
  apply (process_url_done (rt := online) (host := desk)).
  vm_compute. reflexivity.
Defined.
